(** * Booking lifecycle and ledger engine of the rental backend

    A shallow embedding of the request handlers that move money or derive
    aggregates:

    - [controllers/bookings.js] (the last of the files gathered in
      [src/controllers/users.js], lines 826-1328): [getBooking],
      [updateBooking], [createBooking], [deleteBooking] and the filter of
      [listBookings];
    - [ensureChatForBooking] of [src/controllers/chat.js], which
      [createBooking] calls;
    - the wallet controller built by [buildTransactionController]
      ([src/unnamed/part_003]): [performTransaction], [createTransaction],
      [paymentTransaction];
    - [src/controllers/withdrawals.js]: [createWithdrawal];
    - [getUserBalance] of [controllers/users.js] (the first of the files
      gathered in [src/controllers/users.js]);
    - [controllers/reviews.js] (bundled in [src/models/User.js]):
      [updateServiceReviewStats], the three handlers that call it and
      [getReview].

    Conventions of the embedding.

    - A JavaScript number is an exact rational ([Q]); [NaN], the infinities
      and binary rounding error are outside the model.
    - A handler is a function from the request and the persisted world to the
      new world and the response.  The body of its [try] block lives in the
      monad [M]: state passing with exceptions, where the writes made before
      a [throw] stay in the world.
    - A Mongoose collection is a finite map keyed by [_id] when the handlers
      address documents by id, and a list when they scan or append.  A
      document carries the paths that these handlers read or write.
    - A stored transaction keeps every field the controllers put in the
      payload of [Transaction.create] ([type], [action], [providerId],
      [balanceAfter] included), the way the controllers and their tests read
      them back.  The validators are those of the schemas under [src/];
      the length limits of strings are not modelled, and the [date]
      pattern and the [required] of the paths that the handlers copy from
      stored documents are checked where a booking is created only. *)

From Stdlib Require Import QArith Qround Qabs ZArith Ascii String Lia Lqa.
From stdpp Require Import gmap strings list fin_maps.

Open Scope string_scope.

(** ** JavaScript values and numbers *)

(** A value read from a JSON body, classified by what [Number(value)] makes
    of it.  [JNum] stands for numbers and numeric strings; [JNaN] for any
    truthy value whose conversion is [NaN]. *)
Inductive JsVal :=
| JUndefined
| JNull
| JEmpty
| JNum (q : Q)
| JNaN.

Definition Qltb (x y : Q) : bool := negb (Qle_bool y x).

(** [Math.floor], as a number again. *)
Definition floor (x : Q) : Q := inject_Z (Qfloor x).

(** The sum of a list of numbers. *)
Definition sumQ (l : list Q) : Q := fold_right Qplus 0%Q l.

(** [toNumber] of [controllers/bookings.js] and [controllers/reviews.js]:
    [undefined], [null] and [''] give [undefined], and so does [NaN]. *)
Definition toNumber (v : JsVal) : option Q :=
  match v with
  | JNum q => Some q
  | _ => None
  end.

(** [Number(value)] followed by the guard
    [!amount || Number.isNaN(amount) || amount <= 0] of the wallet
    controller: [Some] exactly for the amounts that pass it. *)
Definition positiveAmount (v : JsVal) : option Q :=
  match v with
  | JNum q => if Qltb 0 q then Some q else None
  | _ => None
  end.

(** A string taken for a condition: [undefined] and [''] are falsy. *)
Definition truthy (s : option string) : option string :=
  match s with
  | Some "" => None
  | _ => s
  end.

(** [String.prototype.toUpperCase] on the ASCII letters. *)
Definition upperAscii (c : ascii) : ascii :=
  let n := nat_of_ascii c in
  if (97 <=? n)%nat && (n <=? 122)%nat then ascii_of_nat (n - 32) else c.

Fixpoint toUpperCase (s : string) : string :=
  match s with
  | EmptyString => EmptyString
  | String c rest => String (upperAscii c) (toUpperCase rest)
  end.

(** [String.prototype.trim] for the ASCII blanks, which is also the [trim]
    setter of the schemas. *)
Definition isBlank (c : ascii) : bool :=
  let n := nat_of_ascii c in
  (n =? 32)%nat || ((9 <=? n)%nat && (n <=? 13)%nat).

Fixpoint trimStart (s : string) : string :=
  match s with
  | EmptyString => EmptyString
  | String c rest => if isBlank c then trimStart rest else s
  end.

Fixpoint trimEnd (s : string) : string :=
  match s with
  | EmptyString => EmptyString
  | String c rest =>
      match trimEnd rest with
      | EmptyString => if isBlank c then EmptyString else String c EmptyString
      | rest' => String c rest'
      end
  end.

Definition trim (s : string) : string := trimEnd (trimStart s).

(** [haystack] contains [needle]: the [$regex] filter of MongoDB for a
    pattern without metacharacters. *)
Fixpoint includes (needle haystack : string) : bool :=
  String.prefix needle haystack ||
  match haystack with
  | EmptyString => false
  | String _ rest => includes needle rest
  end.

(** ** Enumerations of the schemas *)

Inductive Role := customer | provider | admin.

Inductive Status := pending | confirmed | completed | cancelled.

Inductive PaymentStatus := unpaid | paid | refunded | partially_refunded.

Inductive CancelledBy := byCustomer | byProvider.

#[global] Instance Role_eq_dec : EqDecision Role.
Proof. solve_decision. Defined.
#[global] Instance Status_eq_dec : EqDecision Status.
Proof. solve_decision. Defined.
#[global] Instance PaymentStatus_eq_dec : EqDecision PaymentStatus.
Proof. solve_decision. Defined.
#[global] Instance CancelledBy_eq_dec : EqDecision CancelledBy.
Proof. solve_decision. Defined.

(** [STATUS_ENUM.includes(s)], with the value it names. *)
Definition parseStatus (s : string) : option Status :=
  if String.eqb s "pending" then Some pending
  else if String.eqb s "confirmed" then Some confirmed
  else if String.eqb s "completed" then Some completed
  else if String.eqb s "cancelled" then Some cancelled
  else None.

(** [PAYMENT_STATUS_ENUM.includes(s)]; the schema's ['pending'] is [unpaid]
    here, to keep it apart from the booking status of the same name. *)
Definition parsePaymentStatus (s : string) : option PaymentStatus :=
  if String.eqb s "pending" then Some unpaid
  else if String.eqb s "paid" then Some paid
  else if String.eqb s "refunded" then Some refunded
  else if String.eqb s "partially_refunded" then Some partially_refunded
  else None.

(** [CANCELLED_BY_ENUM.includes(s)]. *)
Definition parseCancelledBy (s : string) : option CancelledBy :=
  if String.eqb s "customer" then Some byCustomer
  else if String.eqb s "provider" then Some byProvider
  else None.

(** ** Documents *)

Module Booking.
Record t := mk {
  customerId : string;
  providerId : string;
  serviceId : string;
  serviceName : string;
  date : string;
  startTime : string;
  endTime : string;
  totalHours : Q;
  totalAmount : Q;
  depositAmount : Q;
  status : Status;
  paymentStatus : PaymentStatus;
  specialRequests : string;
  cancelledBy : option CancelledBy;
  refundAmount : option Q
}.

Definition setTotalHours (x : Q) (b : t) : t :=
  mk (customerId b) (providerId b) (serviceId b) (serviceName b) (date b)
     (startTime b) (endTime b) x (totalAmount b) (depositAmount b)
     (status b) (paymentStatus b) (specialRequests b) (cancelledBy b)
     (refundAmount b).
Definition setTotalAmount (x : Q) (b : t) : t :=
  mk (customerId b) (providerId b) (serviceId b) (serviceName b) (date b)
     (startTime b) (endTime b) (totalHours b) x (depositAmount b)
     (status b) (paymentStatus b) (specialRequests b) (cancelledBy b)
     (refundAmount b).
Definition setDepositAmount (x : Q) (b : t) : t :=
  mk (customerId b) (providerId b) (serviceId b) (serviceName b) (date b)
     (startTime b) (endTime b) (totalHours b) (totalAmount b) x
     (status b) (paymentStatus b) (specialRequests b) (cancelledBy b)
     (refundAmount b).
Definition setRefundAmount (x : Q) (b : t) : t :=
  mk (customerId b) (providerId b) (serviceId b) (serviceName b) (date b)
     (startTime b) (endTime b) (totalHours b) (totalAmount b)
     (depositAmount b) (status b) (paymentStatus b) (specialRequests b)
     (cancelledBy b) (Some x).
Definition setDate (x : string) (b : t) : t :=
  mk (customerId b) (providerId b) (serviceId b) (serviceName b) x
     (startTime b) (endTime b) (totalHours b) (totalAmount b)
     (depositAmount b) (status b) (paymentStatus b) (specialRequests b)
     (cancelledBy b) (refundAmount b).
Definition setStartTime (x : string) (b : t) : t :=
  mk (customerId b) (providerId b) (serviceId b) (serviceName b) (date b)
     x (endTime b) (totalHours b) (totalAmount b)
     (depositAmount b) (status b) (paymentStatus b) (specialRequests b)
     (cancelledBy b) (refundAmount b).
Definition setEndTime (x : string) (b : t) : t :=
  mk (customerId b) (providerId b) (serviceId b) (serviceName b) (date b)
     (startTime b) x (totalHours b) (totalAmount b)
     (depositAmount b) (status b) (paymentStatus b) (specialRequests b)
     (cancelledBy b) (refundAmount b).
Definition setSpecialRequests (x : string) (b : t) : t :=
  mk (customerId b) (providerId b) (serviceId b) (serviceName b) (date b)
     (startTime b) (endTime b) (totalHours b) (totalAmount b)
     (depositAmount b) (status b) (paymentStatus b) x
     (cancelledBy b) (refundAmount b).
(** [booking.status = s] together with the assignment to
    [booking.cancelledBy] that always follows it. *)
Definition setStatus (s : Status) (by_ : option CancelledBy) (b : t) : t :=
  mk (customerId b) (providerId b) (serviceId b) (serviceName b) (date b)
     (startTime b) (endTime b) (totalHours b) (totalAmount b)
     (depositAmount b) s (paymentStatus b) (specialRequests b)
     by_ (refundAmount b).
Definition setPaymentStatus (p : PaymentStatus) (b : t) : t :=
  mk (customerId b) (providerId b) (serviceId b) (serviceName b) (date b)
     (startTime b) (endTime b) (totalHours b) (totalAmount b)
     (depositAmount b) (status b) p (specialRequests b)
     (cancelledBy b) (refundAmount b).

(** The numeric validators of [BookingSchema], run by [booking.save()]. *)
Definition valid (b : t) : bool :=
  Qle_bool (1 # 2) (totalHours b)
  && Qle_bool 0 (totalAmount b)
  && Qle_bool 0 (depositAmount b)
  && Qle_bool (depositAmount b) (totalAmount b)
  && match refundAmount b with
     | Some r => Qle_bool 0 r
     | None => true
     end.
End Booking.

Module Transaction.
Record t := mk {
  customerId : string;
  amount : Q;
  currency : string;
  method : string;
  type : option string;
  status : string;
  note : string;
  action : option string;
  providerId : option string;
  balanceAfter : option Q
}.

(** The validators of [TransactionSchema]: [amount] at least 0.01 and
    [status] within ['pending' | 'completed' | 'failed']. *)
Definition valid (x : t) : bool :=
  Qle_bool (1 # 100) (amount x)
  && (String.eqb (status x) "pending"
      || String.eqb (status x) "completed"
      || String.eqb (status x) "failed").
End Transaction.

Module Payment.
Record t := mk {
  bookingId : string;
  status : string;
  refundAmount : Q;
  refundReason : string;
  refundedAt : option nat
}.
End Payment.

Module Service.
Record t := mk {
  providerId : string;
  name : string;
  rating : Q;
  reviewCount : nat;
  bookingCount : nat
}.
End Service.

Module Chat.
Record t := mk {
  id : string;
  bookingId : string
}.
End Chat.

Module Review.
Record t := mk {
  bookingId : string;
  serviceId : string;
  customerId : string;
  rating : Q;
  comment : string
}.

(** The validators of [ReviewSchema]: [rating] within 0 and 5. *)
Definition valid (r : t) : bool :=
  Qle_bool 0 (rating r) && Qle_bool (rating r) 5.
End Review.

Module Withdrawal.
Record t := mk {
  userId : string;
  amount : Q;
  bankName : string;
  accountNumber : string;
  accountName : string;
  status : string;
  requestedAt : nat;
  completedAt : option nat
}.
End Withdrawal.

Module User.
Record t := mk {
  type : Role;
  balance : option Q
}.
End User.

(** The authenticated identity that the [protect] middleware puts in
    [req.user]. *)
Record AuthUser := {
  uid : string;
  utype : Role
}.

(** ** The persisted world *)

Record World := mkWorld {
  bookings : gmap string Booking.t;
  services : gmap string Service.t;
  users : gmap string User.t;
  transactions : list Transaction.t;
  payments : list Payment.t;
  chats : list Chat.t;
  reviews : gmap string Review.t;
  withdrawals : list Withdrawal.t;
  (** One entry per coming write to the ledger: [true] makes the store
      refuse that write. *)
  ledgerFaults : list bool;
  (** What [new Date()] reads. *)
  clock : nat
}.

Definition withBookings (x : gmap string Booking.t) (w : World) : World :=
  mkWorld x (services w) (users w) (transactions w) (payments w) (chats w)
          (reviews w) (withdrawals w) (ledgerFaults w) (clock w).
Definition withServices (x : gmap string Service.t) (w : World) : World :=
  mkWorld (bookings w) x (users w) (transactions w) (payments w) (chats w)
          (reviews w) (withdrawals w) (ledgerFaults w) (clock w).
Definition withUsers (x : gmap string User.t) (w : World) : World :=
  mkWorld (bookings w) (services w) x (transactions w) (payments w) (chats w)
          (reviews w) (withdrawals w) (ledgerFaults w) (clock w).
Definition withLedger (x : list Transaction.t) (f : list bool) (w : World)
  : World :=
  mkWorld (bookings w) (services w) (users w) x (payments w) (chats w)
          (reviews w) (withdrawals w) f (clock w).
Definition withPayments (x : list Payment.t) (w : World) : World :=
  mkWorld (bookings w) (services w) (users w) (transactions w) x (chats w)
          (reviews w) (withdrawals w) (ledgerFaults w) (clock w).
Definition withReviews (x : gmap string Review.t) (w : World) : World :=
  mkWorld (bookings w) (services w) (users w) (transactions w) (payments w)
          (chats w) x (withdrawals w) (ledgerFaults w) (clock w).

(** ** Exceptions, the handler monad, responses *)

Inductive Exn :=
| JsError (message : string)
| ValidationError (model : string)
| DuplicateKey (model : string)
| StoreFault (model : string).

Definition M (A : Type) : Type := World -> World * (Exn + A).

Definition ret {A} (x : A) : M A := fun w => (w, inr x).
Definition throw {A} (e : Exn) : M A := fun w => (w, inl e).
Definition bind {A B} (m : M A) (k : A -> M B) : M B :=
  fun w =>
    match m w with
    | (w', inr x) => k x w'
    | (w', inl e) => (w', inl e)
    end.
Definition gets {A} (f : World -> A) : M A := fun w => (w, inr (f w)).
Definition modify (f : World -> World) : M unit := fun w => (f w, inr tt).

Notation "x <- m ;; k" := (bind m (fun x => k))
  (at level 100, m at next level, right associativity).
Notation "m ;;; k" := (bind m (fun _ => k))
  (at level 100, right associativity).

Inductive Payload :=
| Failure (message : string)
| Message (message : string)
| BookingData (id : string) (b : Booking.t) (chatId : option string)
| TransactionData (tx : Transaction.t) (balance : Q)
| PaymentData (tx : Transaction.t) (customerBalance providerBalance : Q)
| WithdrawalData (wd : Withdrawal.t)
| ReviewData (r : Review.t).

Record Response := mkResponse {
  code : nat;
  payload : Payload
}.

(** [res.status(c).json({success: false, message})]. *)
Definition failure (c : nat) (message : string) : Response :=
  mkResponse c (Failure message).

(** [try { body } catch (err) { handler }]. *)
Definition tryCatch (body : M Response) (handler : Exn -> Response)
  : World -> World * Response :=
  fun w =>
    match body w with
    | (w', inr r) => (w', r)
    | (w', inl e) => (w', handler e)
    end.

(** [Transaction.create(doc)]: the schema's validators, then the write,
    which the store may refuse, then the append. *)
Definition Transaction_create (x : Transaction.t) : M unit :=
  fun w =>
    if negb (Transaction.valid x) then (w, inl (ValidationError "Transaction"))
    else
      match ledgerFaults w with
      | true :: rest =>
          (withLedger (transactions w) rest w, inl (StoreFault "Transaction"))
      | faults =>
          (withLedger (transactions w ++ [x]) (tail faults) w, inr tt)
      end.

(** [ensureAuth] and [currentUserId] are repeated verbatim at the head of
    every controller; they read [req.user] only. *)
Definition ensureAuth (user : option AuthUser) : bool :=
  match user with
  | Some _ => true
  | None => false
  end.

Definition currentUserId (user : option AuthUser) : string :=
  match user with
  | Some u => uid u
  | None => ""
  end.

(** [Chat.findOne({bookingId}).select('_id')], then [chat?._id]. *)
Definition findChatId (bookingId : string) (w : World) : option string :=
  match List.find (fun c => String.eqb (Chat.bookingId c) bookingId) (chats w)
  with
  | Some c => Some (Chat.id c)
  | None => None
  end.

(** ** [controllers/bookings.js] *)

Module Bookings.

Record Body := mkBody {
  totalHours : JsVal;
  totalAmount : JsVal;
  depositAmount : JsVal;
  refundAmount : JsVal;
  date : option string;
  startTime : option string;
  endTime : option string;
  specialRequests : option string;
  status : option string;
  cancelledBy : option string;
  paymentStatus : option string
}.

Record Request := mkRequest {
  user : option AuthUser;
  id : string;
  body : Body
}.

Definition canAccessBooking (b : Booking.t) (user : option AuthUser) : bool :=
  match user with
  | None => false
  | Some u =>
      match utype u with
      | admin => true
      | _ =>
          let id := currentUserId user in
          String.eqb (Booking.customerId b) id
          || String.eqb (Booking.providerId b) id
      end
  end.

(** [getBooking], lines 978-998: authentication, the lookup, the chat id. *)
Definition getBooking (req : Request) : World -> World * Response :=
  tryCatch
    (if negb (ensureAuth (user req)) then
       ret (failure 401 "Not authenticated")
     else
       found <- gets (fun w => bookings w !! id req) ;;
       match found with
       | None => ret (failure 404 "Booking not found")
       | Some booking =>
           chat <- gets (findChatId (id req)) ;;
           ret (mkResponse 200 (BookingData (id req) booking chat))
       end)
    (fun _ => failure 500 "Server error").

(** One turn of [numericFields.forEach]. *)
Definition numericField (field : string) (v : JsVal)
    (set : Q -> Booking.t -> Booking.t) (b : Booking.t) : Exn + Booking.t :=
  match v with
  | JUndefined => inr b
  | _ =>
      match toNumber v with
      | None => inl (JsError (field ++ " must be a valid number"))
      | Some num => inr (set num b)
      end
  end.

(** One turn of [stringFields.forEach]. *)
Definition stringField (v : option string)
    (set : string -> Booking.t -> Booking.t) (b : Booking.t) : Booking.t :=
  match v with
  | Some s => set s b
  | None => b
  end.

(** The [inferred] canceller of line 1146. *)
Definition inferred (u : AuthUser) (bd : Body) : CancelledBy :=
  match truthy (cancelledBy bd) with
  | Some s =>
      match parseCancelledBy s with
      | Some who => who
      | None => match utype u with provider => byProvider | _ => byCustomer end
      end
  | None => match utype u with provider => byProvider | _ => byCustomer end
  end.

(** Lines 1115-1129: [numericFields.forEach], which throws at the first
    value that is not a number. *)
Definition applyNumeric (bd : Body) (b0 : Booking.t) : Exn + Booking.t :=
  match numericField "totalHours" (totalHours bd) Booking.setTotalHours b0 with
  | inl e => inl e
  | inr b1 =>
  match numericField "totalAmount" (totalAmount bd) Booking.setTotalAmount b1
  with
  | inl e => inl e
  | inr b2 =>
  match numericField "depositAmount" (depositAmount bd)
          Booking.setDepositAmount b2 with
  | inl e => inl e
  | inr b3 =>
      numericField "refundAmount" (refundAmount bd) Booking.setRefundAmount b3
  end end end.

(** Lines 1131-1136: [stringFields.forEach]. *)
Definition applyStrings (bd : Body) (b : Booking.t) : Booking.t :=
  stringField (specialRequests bd) Booking.setSpecialRequests
    (stringField (endTime bd) Booking.setEndTime
       (stringField (startTime bd) Booking.setStartTime
          (stringField (date bd) Booking.setDate b))).

(** Lines 1138-1157: [inl] is the early [return] of the 400 response. *)
Definition applyStatus (u : AuthUser) (bd : Body) (b : Booking.t)
  : Response + Booking.t :=
  match status bd with
  | None => inr b
  | Some s =>
      match parseStatus s with
      | None => inl (failure 400 "Invalid status value")
      | Some cancelled =>
          inr (Booking.setStatus cancelled (Some (inferred u bd)) b)
      | Some st => inr (Booking.setStatus st None b)
      end
  end.

(** Lines 1159-1166. *)
Definition applyPaymentStatus (bd : Body) (b : Booking.t)
  : Response + Booking.t :=
  match paymentStatus bd with
  | None => inr b
  | Some s =>
      match parsePaymentStatus s with
      | None => inl (failure 400 "Invalid paymentStatus value")
      | Some ps => inr (Booking.setPaymentStatus ps b)
      end
  end.

(** Lines 1115-1166: the request body written over the loaded document.
    [inl e] is a [throw], [inr (inl r)] an early [return res...], and
    [inr (inr b)] the document that goes on to the ledger effects. *)
Definition applyBody (u : AuthUser) (bd : Body) (b0 : Booking.t)
  : Exn + (Response + Booking.t) :=
  match applyNumeric bd b0 with
  | inl e => inl e
  | inr b4 =>
      match applyStatus u bd (applyStrings bd b4) with
      | inl r => inr (inl r)
      | inr b9 => inr (applyPaymentStatus bd b9)
      end
  end.

(** Line 1177: [booking.refundAmount && booking.refundAmount > 0]. *)
Definition alreadyProcessed (b : Booking.t) : bool :=
  match Booking.refundAmount b with
  | Some r => Qltb 0 r
  | None => false
  end.

(** Lines 1181-1193: the refund to the customer and the compensation to the
    provider, in the order [(refundAmount, providerCompensation)]. *)
Definition refundSplit (who : CancelledBy) (total : Q) : Q * Q :=
  match who with
  | byProvider => (total, 0%Q)
  | byCustomer =>
      let refundAmount := floor (total * (1 # 2)) in
      (refundAmount, (total - refundAmount)%Q)
  end.

Definition cancellerLabel (who : CancelledBy) : string :=
  match who with
  | byProvider => "ผู้ให้บริการ"
  | byCustomer => "ลูกค้า"
  end.

Definition paymentStatusName (p : PaymentStatus) : string :=
  match p with
  | unpaid => "pending"
  | paid => "paid"
  | refunded => "refunded"
  | partially_refunded => "partially_refunded"
  end.

(** The document of lines 1197-1207. *)
Definition refundTx (b : Booking.t) (who : CancelledBy) (refundAmount : Q)
  : Transaction.t :=
  Transaction.mk (Booking.customerId b) refundAmount "THB" "refund"
    (Some "refund") "completed"
    ("คืนเงิน - " ++ Booking.serviceName b ++ " (ยกเลิกโดย"
       ++ cancellerLabel who ++ ")")
    None None None.

(** The document of lines 1224-1232. *)
Definition compensationTx (b : Booking.t) (providerCompensation : Q)
  : Transaction.t :=
  Transaction.mk (Booking.providerId b) providerCompensation "THB"
    "compensation" (Some "topup") "completed"
    ("ค่าชดเชยการยกเลิก - " ++ Booking.serviceName b ++ " (ลูกค้ายกเลิก)")
    None None None.

Definition earningNote (b : Booking.t) : string :=
  "รายได้จากการให้บริการ - " ++ Booking.serviceName b.

(** Lines 1248-1249. *)
Definition providerEarning (total : Q) : Q :=
  let platformCommission := floor (total * (1 # 10)) in
  (total - platformCommission)%Q.

(** The document of lines 1252-1260. *)
Definition earningTx (b : Booking.t) : Transaction.t :=
  Transaction.mk (Booking.providerId b)
    (providerEarning (Booking.totalAmount b)) "THB" "earning"
    (Some "topup") "completed" (earningNote b) None None None.

(** Lines 1210-1219: the first payment of the booking, unless it already
    carries [refundedAt]. *)
Fixpoint refundPayment (bid : string) (f : Payment.t -> Payment.t)
    (ps : list Payment.t) : list Payment.t :=
  match ps with
  | [] => []
  | p :: rest =>
      if String.eqb (Payment.bookingId p) bid then
        match Payment.refundedAt p with
        | None => f p :: rest
        | Some _ => p :: rest
        end
      else p :: refundPayment bid f rest
  end.

Definition markRefunded (b : Booking.t) (who : CancelledBy) (refundAmount : Q)
    (at_ : nat) (p : Payment.t) : Payment.t :=
  Payment.mk (Payment.bookingId p) (paymentStatusName (Booking.paymentStatus b))
    refundAmount ("ยกเลิกโดย" ++ cancellerLabel who) (Some at_).

(** Lines 1168-1235.  The result is the in-memory booking, with
    [refundAmount] set when the split was computed. *)
Definition processRefund (bid : string) (b : Booking.t) : M Booking.t :=
  match Booking.status b, Booking.cancelledBy b, Booking.paymentStatus b with
  | cancelled, Some who, (refunded | partially_refunded) =>
      if alreadyProcessed b then ret b
      else
        let (refundAmount, providerCompensation) :=
          refundSplit who (Booking.totalAmount b) in
        let b' := Booking.setRefundAmount refundAmount b in
        (if Qltb 0 refundAmount then
           Transaction_create (refundTx b' who refundAmount) ;;;
           modify (fun w =>
             withPayments
               (refundPayment bid (markRefunded b' who refundAmount (clock w))
                  (payments w)) w)
         else ret tt) ;;;
        (if Qltb 0 providerCompensation then
           Transaction_create (compensationTx b' providerCompensation)
         else ret tt) ;;;
        ret b'
  | _, _, _ => ret b
  end.

(** Lines 1240-1244: [Transaction.findOne] with the provider, the type and
    the note pattern. *)
Definition isEarningOf (b : Booking.t) (x : Transaction.t) : bool :=
  String.eqb (Transaction.customerId x) (Booking.providerId b)
  && match Transaction.type x with
     | Some ty => String.eqb ty "topup"
     | None => false
     end
  && includes (earningNote b) (Transaction.note x).

Definition existingEarning (b : Booking.t) (w : World)
  : option Transaction.t :=
  List.find (isEarningOf b) (transactions w).

(** [Booking.countDocuments({serviceId, status: 'completed'})]. *)
Definition completedBookingsCount (sid : string) (w : World) : nat :=
  length
    (List.filter
       (fun kb =>
          String.eqb (Booking.serviceId (snd kb)) sid
          && bool_decide (Booking.status (snd kb) = completed))
       (map_to_list (bookings w))).

(** Lines 1263-1278. *)
Definition syncBookingCount (b : Booking.t) : M unit :=
  modify (fun w =>
    match services w !! Booking.serviceId b with
    | None => w
    | Some service =>
        let n := completedBookingsCount (Booking.serviceId b) w in
        if Nat.eqb n (Service.bookingCount service) then w
        else
          withServices
            (<[Booking.serviceId b :=
                 Service.mk (Service.providerId service) (Service.name service)
                   (Service.rating service) (Service.reviewCount service) n]>
               (services w)) w
    end).

(** Lines 1237-1279. *)
Definition processEarning (b : Booking.t) : M unit :=
  match Booking.status b, Booking.paymentStatus b with
  | completed, paid =>
      existing <- gets (existingEarning b) ;;
      match existing with
      | Some _ => ret tt
      | None => Transaction_create (earningTx b)
      end ;;;
      syncBookingCount b
  | _, _ => ret tt
  end.

(** [booking.save()]: the schema's validators, then the write. *)
Definition Booking_save (bid : string) (b : Booking.t) : M unit :=
  fun w =>
    if Booking.valid b
    then (withBookings (<[bid := b]> (bookings w)) w, inr tt)
    else (w, inl (ValidationError "Booking")).

(** The [try] block of [updateBooking], lines 1103-1287. *)
Definition updateBookingTry (req : Request) : M Response :=
  match user req with
  | None => ret (failure 401 "Not authenticated")
  | Some u =>
      found <- gets (fun w => bookings w !! id req) ;;
      match found with
      | None => ret (failure 404 "Booking not found")
      | Some booking =>
          if negb (canAccessBooking booking (user req)) then
            ret (failure 403 "Forbidden")
          else
            match applyBody u (body req) booking with
            | inl e => throw e
            | inr (inl r) => ret r
            | inr (inr b) =>
                b' <- processRefund (id req) b ;;
                processEarning b' ;;;
                Booking_save (id req) b' ;;;
                chat <- gets (findChatId (id req)) ;;
                ret (mkResponse 200 (BookingData (id req) b' chat))
            end
      end
  end.

(** The [catch] block of [updateBooking], lines 1288-1302. *)
Definition updateBookingCatch (err : Exn) : Response :=
  match err with
  | JsError message =>
      if includes "must be a valid number" message
      then failure 400 message
      else failure 500 "Server error"
  | ValidationError _ => failure 400 "Validation failed"
  | _ => failure 500 "Server error"
  end.

Definition updateBooking (req : Request) : World -> World * Response :=
  tryCatch (updateBookingTry req) updateBookingCatch.

End Bookings.

(** ** The wallet controller of [buildTransactionController] *)

Module Wallet.

Inductive Action := credit | debit.

Definition actionName (a : Action) : string :=
  match a with
  | credit => "credit"
  | debit => "debit"
  end.

Record Body := mkBody {
  amount : JsVal;
  currency : option string;
  method : option string;
  status : option string;
  note : option string;
  customerId : option string;
  providerId : option string
}.

Record Request := mkRequest {
  user : option AuthUser;
  body : Body
}.

(** [x || fallback] on an optional string. *)
Definition orElse (s : option string) (fallback : string) : string :=
  match truthy s with
  | Some x => x
  | None => fallback
  end.

(** [findUserById]: no query for a falsy id. *)
Definition findUserById (userId : string) (w : World) : option User.t :=
  if String.eqb userId "" then None else users w !! userId.

(** [user.balance || 0]. *)
Definition balanceOf (u : User.t) : Q :=
  match User.balance u with
  | Some b => b
  | None => 0%Q
  end.

(** [user.balance = b; await user.save()] on the document loaded under
    [userId]. *)
Definition saveBalance (userId : string) (u : User.t) (b : Q) : M unit :=
  modify (fun w =>
    withUsers (<[userId := User.mk (User.type u) (Some b)]> (users w)) w).

(** The payer of a request: an admin may name another account. *)
Definition payerId (u : AuthUser) (bd : Body) : string :=
  match utype u, truthy (customerId bd) with
  | admin, Some c => c
  | _, _ => uid u
  end.

(** The [catch] blocks of the two handlers differ in the last message
    only. *)
Definition walletCatch (fallback : string) (err : Exn) : Response :=
  match err with
  | ValidationError _ => failure 400 "Validation failed"
  | _ => failure 500 fallback
  end.

(** [performTransaction], lines 184-243.  The copy of the balance kept on
    [req.user] is a field of the request, not of the world. *)
Definition performTransaction (req : Request) (action : Action)
  : World -> World * Response :=
  tryCatch
    (match user req with
     | None => ret (failure 401 "Not authenticated")
     | Some u =>
         match positiveAmount (amount (body req)) with
         | None => ret (failure 400 "amount must be greater than 0")
         | Some amt =>
             let target := payerId u (body req) in
             targetUser <- gets (findUserById target) ;;
             match targetUser with
             | None => ret (failure 404 "User not found")
             | Some tu =>
                 let delta := match action with
                              | debit => (- amt)%Q
                              | credit => amt
                              end in
                 let nextBalance := (balanceOf tu + delta)%Q in
                 if Qltb nextBalance 0 then
                   ret (failure 400
                          "Insufficient balance to perform this transaction")
                 else
                   saveBalance target tu nextBalance ;;;
                   let tx :=
                     Transaction.mk target amt
                       (toUpperCase (orElse (currency (body req)) "THB"))
                       (orElse (method (body req)) "topup")
                       None
                       (orElse (status (body req)) "completed")
                       (default "" (note (body req)))
                       (Some (actionName action)) None (Some nextBalance) in
                   Transaction_create tx ;;;
                   ret (mkResponse 201 (TransactionData tx nextBalance))
             end
         end
     end)
    (walletCatch "Unable to create transaction").


(** [paymentTransaction], lines 247-321.  Both documents are loaded before
    either is changed, and the two [save()] run under one [Promise.all];
    [providerLast] tells which of the two writes reaches the store last. *)
Definition paymentTransaction (providerLast : bool) (req : Request)
  : World -> World * Response :=
  tryCatch
    (match user req with
     | None => ret (failure 401 "Not authenticated")
     | Some u =>
         match positiveAmount (amount (body req)) with
         | None => ret (failure 400 "amount must be greater than 0")
         | Some amt =>
             match truthy (providerId (body req)) with
             | None => ret (failure 400 "providerId is required")
             | Some pid =>
                 let cid := payerId u (body req) in
                 customer <- gets (findUserById cid) ;;
                 provider <- gets (findUserById pid) ;;
                 match customer, provider with
                 | None, _ => ret (failure 404 "Customer not found")
                 | Some _, None => ret (failure 404 "Provider not found")
                 | Some cu, Some pu =>
                     let nextCustomerBalance := (balanceOf cu - amt)%Q in
                     if Qltb nextCustomerBalance 0 then
                       ret (failure 400 "Insufficient balance")
                     else
                       let providerBalance := (balanceOf pu + amt)%Q in
                       (if providerLast then
                          saveBalance cid cu nextCustomerBalance ;;;
                          saveBalance pid pu providerBalance
                        else
                          saveBalance pid pu providerBalance ;;;
                          saveBalance cid cu nextCustomerBalance) ;;;
                       let tx :=
                         Transaction.mk cid amt
                           (toUpperCase (orElse (currency (body req)) "THB"))
                           (orElse (method (body req)) "payment")
                           None
                           (orElse (status (body req)) "completed")
                           (default "" (note (body req)))
                           (Some "debit") (Some pid)
                           (Some nextCustomerBalance) in
                       Transaction_create tx ;;;
                       ret (mkResponse 201
                              (PaymentData tx nextCustomerBalance
                                 providerBalance))
                 end
             end
         end
     end)
    (walletCatch "Unable to process payment").

End Wallet.


(** ** [controllers/withdrawals.js] *)

Module Withdrawals.

Record Body := mkBody {
  userId : option string;
  amount : JsVal;
  bankName : option string;
  accountNumber : option string;
  accountName : option string
}.

Record Request := mkRequest {
  user : option AuthUser;
  body : Body
}.

(** The reducer of lines 115-123. *)
Definition balanceStep (sum : Q) (t : Transaction.t) : Q :=
  match Transaction.type t with
  | Some ty =>
      if String.eqb ty "topup" || String.eqb ty "refund"
      then (sum + Transaction.amount t)%Q
      else if String.eqb ty "payment" || String.eqb ty "withdrawal"
           then (sum - Transaction.amount t)%Q
           else sum
  | None => sum
  end.

(** [Transaction.find({customerId})] and the [reduce] over it. *)
Definition derivedBalance (target : string) (w : World) : Q :=
  fold_left balanceStep
    (List.filter (fun t => String.eqb (Transaction.customerId t) target)
       (transactions w))
    0%Q.





End Withdrawals.

(** ** [controllers/reviews.js] *)

Module Reviews.

Record Body := mkBody {
  bookingId : option string;
  serviceId : option string;
  customerId : option string;
  rating : JsVal;
  comment : option string
}.

Record Request := mkRequest {
  user : option AuthUser;
  id : string;
  body : Body
}.

(** [Number.prototype.toFixed(2)] read back by [Number]: the sign apart,
    the nearest multiple of 1/100, the larger one on a tie. *)
Definition toFixed2 (x : Q) : Q :=
  if Qltb x 0
  then (- (inject_Z (Qfloor (- x * 100 + (1 # 2))) / 100))%Q
  else (inject_Z (Qfloor (x * 100 + (1 # 2))) / 100)%Q.

(** The [$match] stage: the ratings of the reviews of one service. *)
Definition ratingsOf (sid : string) (w : World) : list Q :=
  List.map (fun kr => Review.rating (snd kr))
    (List.filter (fun kr => String.eqb (Review.serviceId (snd kr)) sid)
       (map_to_list (reviews w))).

(** The [$group] stage: [{$avg: '$rating'}]. *)
Definition average (l : list Q) : Q :=
  (sumQ l / inject_Z (Z.of_nat (length l)))%Q.

(** [updateServiceReviewStats], lines 356-380. *)
Definition updateServiceReviewStats (sid : string) : M unit :=
  if String.eqb sid "" then ret tt
  else
    modify (fun w =>
      let stats := ratingsOf sid w in
      let avg := match stats with
                 | [] => 0%Q
                 | _ => toFixed2 (average stats)
                 end in
      let count := length stats in
      match services w !! sid with
      | None => w
      | Some s =>
          withServices
            (<[sid := Service.mk (Service.providerId s) (Service.name s) avg
                        count (Service.bookingCount s)]> (services w)) w
      end).

(** [Review.create(payload)] under the fresh [_id] that [uuidv4] returned:
    the validators, the unique [_id] and the unique index on
    [(serviceId, customerId)]. *)
Definition Review_create (uuid : string) (r : Review.t) : M Review.t :=
  fun w =>
    if negb (Review.valid r) then (w, inl (ValidationError "Review"))
    else if bool_decide (is_Some (reviews w !! uuid))
            || existsb
                 (fun kr =>
                    String.eqb (Review.serviceId (snd kr)) (Review.serviceId r)
                    && String.eqb (Review.customerId (snd kr))
                         (Review.customerId r))
                 (map_to_list (reviews w))
    then (w, inl (DuplicateKey "Review"))
    else (withReviews (<[uuid := r]> (reviews w)) w, inr r).

(** [review.save()]. *)
Definition Review_save (rid : string) (r : Review.t) : M unit :=
  fun w =>
    if Review.valid r
    then (withReviews (<[rid := r]> (reviews w)) w, inr tt)
    else (w, inl (ValidationError "Review")).

Definition reviewsCatch (conflict : bool) (err : Exn) : Response :=
  match err with
  | DuplicateKey _ =>
      if conflict then failure 409 "You have already reviewed this service"
      else failure 500 "Server error"
  | ValidationError _ => failure 400 "Validation failed"
  | _ => failure 500 "Server error"
  end.

(** [createReview], lines 432-536. *)
Definition createReview (uuid : string) (req : Request)
  : World -> World * Response :=
  tryCatch
    (match user req with
     | None => ret (failure 401 "Not authenticated")
     | Some u =>
       if bool_decide (utype u = provider) then
         ret (failure 403 "Only customers or admins can create reviews")
       else
       match truthy (bookingId (body req)) with
       | None => ret (failure 400 "bookingId is required")
       | Some bid =>
         service <- gets (fun w =>
                      match serviceId (body req) with
                      | Some sid => services w !! sid
                      | None => None
                      end) ;;
         match service with
         | None => ret (failure 404 "Service not found")
         | Some _ =>
           booking <- gets (fun w => bookings w !! bid) ;;
           match booking with
           | None => ret (failure 404 "Booking not found")
           | Some bk =>
             if negb (String.eqb (Booking.serviceId bk)
                        (default "" (serviceId (body req)))) then
               ret (failure 400
                      "bookingId does not belong to the provided serviceId")
             else if String.eqb (uid u) "" then
               ret (failure 400 "customerId is required")
             else if negb (bool_decide (utype u = admin))
                     && negb (String.eqb (Booking.customerId bk) (uid u)) then
               ret (failure 403 "You can only review your own bookings")
             else if bool_decide (utype u = admin)
                     && match truthy (customerId (body req)) with
                        | Some c => negb (String.eqb c (Booking.customerId bk))
                        | None => false
                        end then
               ret (failure 400 "customerId does not match booking")
             else if String.eqb (Booking.customerId bk) "" then
               ret (failure 400 "Booking is missing customer information")
             else
               match toNumber (rating (body req)) with
               | None =>
                   ret (failure 400 "rating is required and must be numeric")
               | Some rt =>
                   review <- Review_create uuid
                     (Review.mk bid (Booking.serviceId bk)
                        (Booking.customerId bk) rt
                        (trim (default "" (comment (body req))))) ;;
                   updateServiceReviewStats (Review.serviceId review) ;;;
                   ret (mkResponse 201 (ReviewData review))
               end
           end
         end
       end
     end)
    (reviewsCatch true).

(** [updateReview], lines 538-588. *)
Definition updateReview (req : Request) : World -> World * Response :=
  tryCatch
    (match user req with
     | None => ret (failure 401 "Not authenticated")
     | Some u =>
       found <- gets (fun w => reviews w !! id req) ;;
       match found with
       | None => ret (failure 404 "Review not found")
       | Some review =>
         if negb (bool_decide (utype u = admin))
            && negb (String.eqb (Review.customerId review) (uid u)) then
           ret (failure 403 "Forbidden")
         else
           let withRating :=
             match rating (body req) with
             | JUndefined => Some (review, false)
             | v =>
                 match toNumber v with
                 | None => None
                 | Some rt =>
                     Some (Review.mk (Review.bookingId review)
                             (Review.serviceId review)
                             (Review.customerId review) rt
                             (Review.comment review), true)
                 end
             end in
           match withRating with
           | None => ret (failure 400 "rating must be numeric")
           | Some (r1, shouldUpdateStats) =>
               let r2 :=
                 match comment (body req) with
                 | Some c =>
                     Review.mk (Review.bookingId r1) (Review.serviceId r1)
                       (Review.customerId r1) (Review.rating r1) (trim c)
                 | None => r1
                 end in
               Review_save (id req) r2 ;;;
               (if shouldUpdateStats
                then updateServiceReviewStats (Review.serviceId r2)
                else ret tt) ;;;
               ret (mkResponse 200 (ReviewData r2))
           end
       end
     end)
    (reviewsCatch false).

(** [deleteReview], lines 590-614. *)
Definition deleteReview (req : Request) : World -> World * Response :=
  tryCatch
    (match user req with
     | None => ret (failure 401 "Not authenticated")
     | Some u =>
       found <- gets (fun w => reviews w !! id req) ;;
       match found with
       | None => ret (failure 404 "Review not found")
       | Some review =>
         if negb (bool_decide (utype u = admin))
            && negb (String.eqb (Review.customerId review) (uid u)) then
           ret (failure 403 "Forbidden")
         else
           modify (fun w => withReviews (delete (id req) (reviews w)) w) ;;;
           updateServiceReviewStats (Review.serviceId review) ;;;
           ret (mkResponse 200 (Message "Review deleted"))
       end
     end)
    (fun _ => failure 500 "Server error").

End Reviews.

(** ** [controllers/chat.js]: the chat of a booking *)

Definition withChats (x : list Chat.t) (w : World) : World :=
  mkWorld (bookings w) (services w) (users w) (transactions w) (payments w) x
          (reviews w) (withdrawals w) (ledgerFaults w) (clock w).

(** [try { body } catch (err) { handler }] around a block that goes on. *)
Definition catchM {A} (body : M A) (handler : Exn -> M A) : M A :=
  fun w =>
    match body w with
    | (w', inl e) => handler e w'
    | done => done
    end.

(** [ChatModel.create(payload)] under the fresh [_id] that [randomUUID]
    returned.  Of the payload the chat keeps [bookingId], which the lookup
    before the call has found unused; [customerId] and [providerId] are
    copies of the booking's, which [ensureChatForBooking] has found
    present. *)
Definition Chat_create (uuid bookingId : string) : M Chat.t :=
  fun w =>
    if existsb (fun c => String.eqb (Chat.id c) uuid) (chats w)
    then (w, inl (DuplicateKey "Chat"))
    else
      let chat := Chat.mk uuid bookingId in
      (withChats (chats w ++ [chat]) w, inr chat).

(** [ensureChatForBookingInternal], lines 10-24 of [controllers/chat.js],
    on the booking stored under [bookingId]. *)
Definition ensureChatForBooking (uuid bookingId : string)
    (booking : Booking.t) : M (option Chat.t) :=
  if String.eqb bookingId "" || String.eqb (Booking.customerId booking) ""
     || String.eqb (Booking.providerId booking) ""
  then ret None
  else
    existing <- gets (fun w =>
                  List.find (fun c => String.eqb (Chat.bookingId c) bookingId)
                    (chats w)) ;;
    match existing with
    | Some chat => ret (Some chat)
    | None => chat <- Chat_create uuid bookingId ;; ret (Some chat)
    end.

(** ** [controllers/bookings.js]: creating, deleting and listing *)

Module BookingCrud.

Record Body := mkBody {
  serviceId : option string;
  customerId : option string;
  date : option string;
  startTime : option string;
  endTime : option string;
  totalHours : JsVal;
  totalAmount : JsVal;
  depositAmount : JsVal;
  specialRequests : option string;
  status : option string;
  paymentStatus : option string
}.

Record Request := mkRequest {
  user : option AuthUser;
  body : Body
}.

Definition isDigit (c : ascii) : bool :=
  let n := nat_of_ascii c in (48 <=? n)%nat && (n <=? 57)%nat.

Definition isDash (c : ascii) : bool := (nat_of_ascii c =? 45)%nat.

(** [isoDateRegex.test(value)] for [/^\d{4}-\d{2}-\d{2}$/]. *)
Definition isoDate (s : string) : bool :=
  match list_ascii_of_string s with
  | [y1; y2; y3; y4; d1; m1; m2; d2; a1; a2] =>
      isDigit y1 && isDigit y2 && isDigit y3 && isDigit y4 && isDash d1
      && isDigit m1 && isDigit m2 && isDash d2 && isDigit a1 && isDigit a2
  | _ => false
  end.

(** A [required] string path with the [trim] setter: the stored value. *)
Definition requiredTrimmed (s : option string) : option string :=
  match s with
  | Some x => if String.eqb (trim x) "" then None else Some (trim x)
  | None => None
  end.

(** [Booking.create(bookingPayload)] under the fresh [_id] that
    [randomUUID] returned: the defaults and the [trim] setters of
    [BookingSchema], its [required] paths, the pattern of [date] and the
    numeric validators (the length limits apart), then the write. *)
Definition Booking_create (uuid customer sid : string) (service : Service.t)
    (hours amount deposit : Q) (bd : Body) : M Booking.t :=
  fun w =>
    match date bd, requiredTrimmed (startTime bd),
          requiredTrimmed (endTime bd),
          requiredTrimmed (Some (Service.name service)) with
    | Some day, Some start, Some finish, Some name =>
        let booking :=
          Booking.mk customer (Service.providerId service) sid name day start
            finish hours amount deposit
            (default pending
               (match truthy (status bd) with
                | Some s => parseStatus s
                | None => None
                end))
            (default unpaid
               (match truthy (paymentStatus bd) with
                | Some s => parsePaymentStatus s
                | None => None
                end))
            (default "" (specialRequests bd)) None None in
        if String.eqb customer "" || String.eqb (Service.providerId service) ""
           || String.eqb sid "" || negb (isoDate day)
           || negb (Booking.valid booking)
        then (w, inl (ValidationError "Booking"))
        else if bool_decide (is_Some (bookings w !! uuid))
        then (w, inl (DuplicateKey "Booking"))
        else (withBookings (<[uuid := booking]> (bookings w)) w, inr booking)
    | _, _, _, _ => (w, inl (ValidationError "Booking"))
    end.

(** [createBooking], lines 1000-1099; [uuid] and [chatUuid] are the two
    identifiers that [randomUUID] returns during the request. *)
Definition createBooking (uuid chatUuid : string) (req : Request)
  : World -> World * Response :=
  tryCatch
    (match user req with
     | None => ret (failure 401 "Not authenticated")
     | Some u =>
       if bool_decide (utype u = provider) then
         ret (failure 403 "Only customers or admins can create bookings")
       else
         service <- gets (fun w =>
                      match serviceId (body req) with
                      | Some sid => services w !! sid
                      | None => None
                      end) ;;
         match service with
         | None => ret (failure 404 "Service not found")
         | Some svc =>
           let customer :=
             match utype u, truthy (customerId (body req)) with
             | admin, Some c => c
             | _, _ => uid u
             end in
           if String.eqb (Service.providerId svc) customer then
             ret (failure 400 "Providers cannot book their own services")
           else
             match toNumber (totalHours (body req)),
                   toNumber (totalAmount (body req)),
                   toNumber (depositAmount (body req)) with
             | None, _, _ =>
                 ret (failure 400 "totalHours is required and must be numeric")
             | Some _, None, _ =>
                 ret (failure 400
                        "totalAmount is required and must be numeric")
             | Some _, Some _, None =>
                 ret (failure 400
                        "depositAmount is required and must be numeric")
             | Some hours, Some amount, Some deposit =>
                 booking <- Booking_create uuid customer
                              (default "" (serviceId (body req))) svc
                              hours amount deposit (body req) ;;
                 chat <- catchM (ensureChatForBooking chatUuid uuid booking)
                           (fun _ => ret None) ;;
                 ret (mkResponse 201
                        (BookingData uuid booking (Chat.id <$> chat)))
             end
         end
     end)
    (fun err =>
       match err with
       | ValidationError _ => failure 400 "Validation failed"
       | _ => failure 500 "Server error"
       end).

(** [deleteBooking], lines 1305-1328. *)
Definition deleteBooking (req : Bookings.Request)
  : World -> World * Response :=
  tryCatch
    (match Bookings.user req with
     | None => ret (failure 401 "Not authenticated")
     | Some u =>
       if negb (bool_decide (utype u = admin)) then
         ret (failure 403 "Only admins can delete bookings")
       else
         found <- gets (fun w => bookings w !! Bookings.id req) ;;
         match found with
         | None => ret (failure 404 "Booking not found")
         | Some _ =>
             modify (fun w =>
               withBookings (delete (Bookings.id req) (bookings w)) w) ;;;
             ret (mkResponse 200 (Message "Booking deleted"))
         end
     end)
    (fun _ => failure 500 "Server error").

(** The query string of [listBookings], as far as the filter reads it. *)
Record Query := mkQuery {
  q_customerId : option string;
  q_providerId : option string;
  q_serviceId : option string;
  q_status : option string;
  q_paymentStatus : option string;
  q_dateFrom : option string;
  q_dateTo : option string
}.

(** The MongoDB filter that [listBookings] builds. *)
Record Filter := mkFilter {
  f_customerId : option string;
  f_providerId : option string;
  f_serviceId : option string;
  f_status : option Status;
  f_paymentStatus : option PaymentStatus;
  f_dateFrom : option string;
  f_dateTo : option string
}.

(** [req.query.status], checked against [STATUS_ENUM]. *)
Definition statusFilter (q : Query) : Response + option Status :=
  match truthy (q_status q) with
  | Some s =>
      match parseStatus s with
      | Some st => inr (Some st)
      | None => inl (failure 400 "Invalid status filter")
      end
  | None => inr None
  end.

(** [req.query.paymentStatus], checked against [PAYMENT_STATUS_ENUM]. *)
Definition paymentStatusFilter (q : Query)
  : Response + option PaymentStatus :=
  match truthy (q_paymentStatus q) with
  | Some s =>
      match parsePaymentStatus s with
      | Some ps => inr (Some ps)
      | None => inl (failure 400 "Invalid paymentStatus filter")
      end
  | None => inr None
  end.

(** Lines 886-943 of [listBookings]: the filter, or the reply of an early
    [return]. *)
Definition listBookingsFilter (u : AuthUser) (q : Query)
  : Response + Filter :=
  let isAdmin := bool_decide (utype u = admin) in
  let foreign (x : option string) :=
    match truthy x with
    | Some v => negb isAdmin && negb (String.eqb v (uid u))
    | None => false
    end in
  if foreign (q_customerId q) then
    inl (failure 403 "Forbidden for requested customerId")
  else if foreign (q_providerId q) then
    inl (failure 403 "Forbidden for requested providerId")
  else
    let byRole :=
      match truthy (q_customerId q), truthy (q_providerId q) with
      | None, None => negb isAdmin
      | _, _ => false
      end in
    let customerFilter :=
      if byRole && negb (bool_decide (utype u = provider))
      then Some (uid u) else truthy (q_customerId q) in
    let providerFilter :=
      if byRole && bool_decide (utype u = provider)
      then Some (uid u) else truthy (q_providerId q) in
    match statusFilter q with
    | inl r => inl r
    | inr st =>
        match paymentStatusFilter q with
        | inl r => inl r
        | inr ps =>
            inr (mkFilter customerFilter providerFilter
                   (truthy (q_serviceId q)) st ps
                   (truthy (q_dateFrom q)) (truthy (q_dateTo q)))
        end
    end.

(** A path of the filter that is an equality on a string. *)
Definition same (wanted : option string) (value : string) : bool :=
  match wanted with
  | Some x => String.eqb value x
  | None => true
  end.

(** The documents that MongoDB selects for the filter. *)
Definition matches (f : Filter) (b : Booking.t) : bool :=
  same (f_customerId f) (Booking.customerId b)
  && same (f_providerId f) (Booking.providerId b)
  && same (f_serviceId f) (Booking.serviceId b)
  && match f_status f with
     | Some st => bool_decide (Booking.status b = st)
     | None => true
     end
  && match f_paymentStatus f with
     | Some ps => bool_decide (Booking.paymentStatus b = ps)
     | None => true
     end
  && match f_dateFrom f with
     | Some from => String.leb from (Booking.date b)
     | None => true
     end
  && match f_dateTo f with
     | Some to => String.leb (Booking.date b) to
     | None => true
     end.

End BookingCrud.

(** ** [controllers/users.js]: the balance of an account *)

Module Users.

Record Request := mkRequest {
  user : option AuthUser;
  id : string
}.




End Users.

(** [getReview] of [controllers/reviews.js], lines 417-430. *)
Definition getReview (id : string) : World -> World * Response :=
  tryCatch
    (found <- gets (fun w => reviews w !! id) ;;
     match found with
     | None => ret (failure 404 "Review not found")
     | Some review => ret (mkResponse 200 (ReviewData review))
     end)
    (fun _ => failure 500 "Server error").

(** * Vocabulary of the statements *)

(** The four paths of a booking that no update touches. *)
Definition parties (b : Booking.t) : string * string * string * string :=
  (Booking.customerId b, Booking.providerId b, Booking.serviceId b,
   Booking.serviceName b).

(** The transactions of a ledger by the kind the controllers gave them. *)
Definition isRefund (x : Transaction.t) : bool :=
  String.eqb (Transaction.method x) "refund".
Definition isCompensation (x : Transaction.t) : bool :=
  String.eqb (Transaction.method x) "compensation".

(** What [applyBody] leaves of the stored document [b0] and what it takes
    from the request, path by path. *)
Record Edited (u : AuthUser) (bd : Bookings.Body) (b0 b : Booking.t)
  : Prop := {
  edited_parties : parties b = parties b0;
  edited_totalAmount :
    Booking.totalAmount b =
      match Bookings.totalAmount bd with
      | JNum q => q
      | _ => Booking.totalAmount b0
      end;
  edited_refundAmount :
    Booking.refundAmount b =
      match Bookings.refundAmount bd with
      | JNum q => Some q
      | _ => Booking.refundAmount b0
      end;
  edited_status :
    (Booking.status b, Booking.cancelledBy b) =
      match Bookings.status bd with
      | None => (Booking.status b0, Booking.cancelledBy b0)
      | Some s =>
          match parseStatus s with
          | Some cancelled => (cancelled, Some (Bookings.inferred u bd))
          | Some st => (st, None)
          | None => (Booking.status b0, Booking.cancelledBy b0)
          end
      end;
  edited_paymentStatus :
    Booking.paymentStatus b =
      match Bookings.paymentStatus bd with
      | None => Booking.paymentStatus b0
      | Some s => default (Booking.paymentStatus b0) (parsePaymentStatus s)
      end
}.


(** The balance stored for an account. *)
Definition storedBalance (userId : string) (w : World) : option Q :=
  match users w !! userId with
  | Some u => User.balance u
  | None => None
  end.







(** The collections that no booking handler writes. *)
Definition bystanders (w : World)
  : gmap string User.t * gmap string Review.t * list Withdrawal.t
    * list Chat.t * nat :=
  (users w, reviews w, withdrawals w, chats w, clock w).

(** A booking names its canceller exactly when it is cancelled. *)
Definition cancellerRecorded (b : Booking.t) : Prop :=
  Booking.status b = cancelled <-> is_Some (Booking.cancelledBy b).

(** What a wallet handler may do to the ledger and to the collections that
    are not accounts. *)
Definition walletFrame (w w' : World) : Prop :=
  (transactions w' = transactions w
   \/ exists tx, transactions w' = (transactions w ++ [tx])%list
                 /\ Transaction.type tx = None)
  /\ bookings w' = bookings w
  /\ services w' = services w
  /\ withdrawals w' = withdrawals w
  /\ payments w' = payments w.

(** No two chats are of the same booking. *)
Definition oneChatPerBooking (w : World) : Prop :=
  NoDup (List.map Chat.bookingId (chats w)).

(** Every stored review passes the validators of [ReviewSchema]. *)
Definition ratingsInRange (w : World) : Prop :=
  forall k r, reviews w !! k = Some r -> Review.valid r = true.

(** No customer has two reviews of the same service: the unique index of
    [ReviewSchema]. *)
Definition oneReviewPerCustomer (w : World) : Prop :=
  forall k1 k2 r1 r2,
    reviews w !! k1 = Some r1 -> reviews w !! k2 = Some r2 ->
    Review.serviceId r1 = Review.serviceId r2 ->
    Review.customerId r1 = Review.customerId r2 ->
    k1 = k2.

(** The caller may alter the review: an admin, or its author. *)
Definition mayAlter (user : option AuthUser) (r : Review.t) : Prop :=
  exists u, user = Some u /\ (utype u = admin \/ Review.customerId r = uid u).

(** ** Sample data *)

Module Sample.

Definition noChange : Bookings.Body :=
  Bookings.mkBody JUndefined JUndefined JUndefined JUndefined
    None None None None None None None.

(** [{status, paymentStatus}] *)
Definition statusBody (st ps : string) : Bookings.Body :=
  Bookings.mkBody JUndefined JUndefined JUndefined JUndefined
    None None None None (Some st) None (Some ps).

(** [{status, paymentStatus, refundAmount}] *)
Definition refundBody (st ps : string) (q : Q) : Bookings.Body :=
  Bookings.mkBody JUndefined JUndefined JUndefined (JNum q)
    None None None None (Some st) None (Some ps).

Definition alice : AuthUser := {| uid := "alice"; utype := customer |}.
Definition bella : AuthUser := {| uid := "bella"; utype := provider |}.
Definition carol : AuthUser := {| uid := "carol"; utype := customer |}.

(** A confirmed, paid booking of Alice with Bella. *)
Definition booking (total : Q) : Booking.t :=
  Booking.mk "alice" "bella" "svc-1" "Dinner Date" "2025-11-02" "18:00"
    "20:00" 2 total 0 confirmed paid "" None None.

(** The same service booked by Carol. *)
Definition booking2 (total : Q) : Booking.t :=
  Booking.mk "carol" "bella" "svc-1" "Dinner Date" "2025-11-09" "18:00"
    "20:00" 2 total 0 confirmed paid "" None None.

Definition service : Service.t := Service.mk "bella" "Dinner Date" 0 0 0.

(** One booking ["b-1"] of the given amount, an empty ledger. *)
Definition world (total : Q) : World :=
  mkWorld {[ "b-1" := booking total ]} {[ "svc-1" := service ]} ∅ [] [] [] ∅
    [] [] 0.

(** The same world in front of a store that takes the first write to the
    ledger and refuses the second. *)
Definition failing (total : Q) : World :=
  mkWorld {[ "b-1" := booking total ]} {[ "svc-1" := service ]} ∅ [] [] [] ∅
    [] [false; true] 0.


Definition request (u : AuthUser) (bid : string) (bd : Bookings.Body)
  : Bookings.Request :=
  Bookings.mkRequest (Some u) bid bd.

(** Alice holds 120 and Bella 50, as in [tests/transactions.test.js]. *)
Definition wallets : World :=
  mkWorld ∅ ∅
    (<[ "bella" := User.mk provider (Some 50%Q) ]>
       {[ "alice" := User.mk customer (Some 120%Q) ]})
    [] [] [] ∅ [] [] 0.

(** Alice's and Carol's bookings of 1500, and no review yet. *)
Definition reviewed : World :=
  mkWorld
    (<[ "b-2" := booking2 1500 ]> {[ "b-1" := booking 1500 ]})
    {[ "svc-1" := service ]} ∅ [] [] [] ∅ [] [] 0.

(** [{bookingId, serviceId, rating}] *)
Definition review (u : AuthUser) (bid : string) (stars : Q)
  : Reviews.Request :=
  Reviews.mkRequest (Some u) ""
    (Reviews.mkBody (Some bid) (Some "svc-1") None (JNum stars) None).

(** [{rating}] on the review [rid]. *)
Definition rerate (u : AuthUser) (rid : string) (stars : Q)
  : Reviews.Request :=
  Reviews.mkRequest (Some u) rid
    (Reviews.mkBody None None None (JNum stars) None).




End Sample.

Module Scenario.

(** [{serviceId, date, startTime, endTime, totalHours, totalAmount,
    depositAmount}] *)
Definition book (by_ : AuthUser) (total deposit : Q)
  : BookingCrud.Request :=
  BookingCrud.mkRequest (Some by_)
    (BookingCrud.mkBody (Some "svc-1") None (Some "2025-12-24")
       (Some " 18:00") (Some "20:00 ") (JNum 2) (JNum total) (JNum deposit)
       None None None).

(** The service of Bella and no booking yet. *)
Definition catalogue : World :=
  mkWorld ∅ {[ "svc-1" := Sample.service ]} ∅ [] [] [] ∅ [] [] 0.



End Scenario.

(** * Properties *)

Open Scope list_scope.

(** ** Numbers and strings *)

Lemma Qltb_lt (x y : Q) : Qltb x y = true <-> (x < y)%Q.
Proof.
  unfold Qltb. rewrite negb_true_iff. split.
  - intros H. apply Qnot_le_lt. intros Hle.
    apply Qle_bool_iff in Hle. congruence.
  - intros H. destruct (Qle_bool y x) eqn:E; [|reflexivity].
    apply Qle_bool_iff in E. exfalso. apply (Qlt_not_le _ _ H E).
Qed.




Lemma floor_half_pos (total : Q) :
  (2 <= total)%Q -> (0 < floor (total * (1 # 2)))%Q.
Proof.
  intros H. unfold floor.
  assert (Hz : (Qfloor 1 <= Qfloor (total * (1 # 2)))%Z)
    by (apply Qfloor_resp_le; lra).
  change (Qfloor 1) with 1%Z in Hz.
  unfold Qlt, inject_Z. cbn [Qnum Qden]. lia.
Qed.

Lemma find_app_None {A} (f : A -> bool) (l l' : list A) :
  List.find f l = None -> List.find f (l ++ l') = List.find f l'.
Proof.
  induction l as [|x l IH]; simpl; [reflexivity|].
  destruct (f x); [discriminate|exact IH].
Qed.

(** ** The handler monad *)

Lemma bind_inr {A B} (m : M A) (k : A -> M B) w w' x :
  m w = (w', inr x) -> bind m k w = k x w'.
Proof. unfold bind. intros ->. reflexivity. Qed.

Lemma bind_inl {A B} (m : M A) (k : A -> M B) w w' e :
  m w = (w', inl e) -> bind m k w = (w', inl e).
Proof. unfold bind. intros ->. reflexivity. Qed.

(** ** The request body of [updateBooking] *)

Section ApplyBody.

Import Bookings.

Lemma numericField_inr field v set b b' :
  numericField field v set b = inr b' ->
  (v = JUndefined /\ b' = b) \/ (exists q, v = JNum q /\ b' = set q b).
Proof.
  unfold numericField. destruct v; simpl; intros H; try discriminate.
  - left. split; congruence.
  - right. exists q. split; congruence.
Qed.

Lemma applyNumeric_inr bd b0 b :
  applyNumeric bd b0 = inr b ->
  parties b = parties b0
  /\ (Booking.status b, Booking.cancelledBy b, Booking.paymentStatus b)
     = (Booking.status b0, Booking.cancelledBy b0, Booking.paymentStatus b0)
  /\ Booking.totalAmount b =
       match totalAmount bd with
       | JNum q => q
       | _ => Booking.totalAmount b0
       end
  /\ Booking.refundAmount b =
       match refundAmount bd with
       | JNum q => Some q
       | _ => Booking.refundAmount b0
       end.
Proof.
  unfold applyNumeric. intros H.
  destruct (numericField "totalHours" _ _ _) as [|b1] eqn:E1;
    [discriminate|].
  destruct (numericField "totalAmount" _ _ _) as [|b2] eqn:E2;
    [discriminate|].
  destruct (numericField "depositAmount" _ _ _) as [|b3] eqn:E3;
    [discriminate|].
  apply numericField_inr in E1, E2, E3, H.
  destruct E1 as [[_ ->]|[q1 [_ ->]]];
    destruct E2 as [[-> ->]|[q2 [-> ->]]];
    destruct E3 as [[_ ->]|[q3 [_ ->]]];
    destruct H as [[-> ->]|[q4 [-> ->]]];
    repeat split.
Qed.

Lemma applyStrings_fixed bd b :
  parties (applyStrings bd b) = parties b
  /\ (Booking.status (applyStrings bd b), Booking.cancelledBy (applyStrings bd b),
      Booking.paymentStatus (applyStrings bd b))
     = (Booking.status b, Booking.cancelledBy b, Booking.paymentStatus b)
  /\ Booking.totalAmount (applyStrings bd b) = Booking.totalAmount b
  /\ Booking.refundAmount (applyStrings bd b) = Booking.refundAmount b.
Proof.
  unfold applyStrings.
  destruct (specialRequests bd), (endTime bd), (startTime bd), (date bd);
    repeat split.
Qed.

Lemma applyStatus_inr u bd b b' :
  applyStatus u bd b = inr b' ->
  parties b' = parties b
  /\ Booking.paymentStatus b' = Booking.paymentStatus b
  /\ Booking.totalAmount b' = Booking.totalAmount b
  /\ Booking.refundAmount b' = Booking.refundAmount b
  /\ (Booking.status b', Booking.cancelledBy b') =
       match status bd with
       | None => (Booking.status b, Booking.cancelledBy b)
       | Some s =>
           match parseStatus s with
           | Some cancelled => (cancelled, Some (inferred u bd))
           | Some st => (st, None)
           | None => (Booking.status b, Booking.cancelledBy b)
           end
       end.
Proof.
  unfold applyStatus.
  destruct (status bd) as [s|]; [|intros [= <-]; repeat split].
  destruct (parseStatus s) as [[| | |]|]; intros [= <-]; repeat split.
Qed.

Lemma applyPaymentStatus_inr bd b b' :
  applyPaymentStatus bd b = inr b' ->
  parties b' = parties b
  /\ (Booking.status b', Booking.cancelledBy b')
     = (Booking.status b, Booking.cancelledBy b)
  /\ Booking.totalAmount b' = Booking.totalAmount b
  /\ Booking.refundAmount b' = Booking.refundAmount b
  /\ Booking.paymentStatus b' =
       match paymentStatus bd with
       | None => Booking.paymentStatus b
       | Some s => default (Booking.paymentStatus b) (parsePaymentStatus s)
       end.
Proof.
  unfold applyPaymentStatus.
  destruct (paymentStatus bd) as [s|]; [|intros [= <-]; repeat split].
  destruct (parsePaymentStatus s); intros [= <-]; repeat split.
Qed.

Lemma applyBody_edited u bd b0 b :
  applyBody u bd b0 = inr (inr b) -> Edited u bd b0 b.
Proof.
  unfold applyBody. intros H.
  destruct (applyNumeric bd b0) as [|b4] eqn:E1; [discriminate|].
  destruct (applyStatus u bd (applyStrings bd b4)) as [|b9] eqn:E2;
    [discriminate|].
  injection H as H.
  apply applyNumeric_inr in E1 as (P1 & S1 & T1 & R1).
  destruct (applyStrings_fixed bd b4) as (P2 & S2 & T2 & R2).
  apply applyStatus_inr in E2 as (P3 & Y3 & T3 & R3 & S3).
  apply applyPaymentStatus_inr in H as (P4 & S4 & T4 & R4 & Y4).
  injection S1 as S1a S1b S1c. injection S2 as S2a S2b S2c.
  split.
  - congruence.
  - congruence.
  - congruence.
  - rewrite S4, S3, S2a, S2b, S1a, S1b. reflexivity.
  - rewrite Y4, Y3, S2c, S1c. reflexivity.
Qed.

End ApplyBody.

(** ** The ledger *)

Lemma Transaction_create_inv x w w' res :
  Transaction_create x w = (w', res) ->
  bookings w' = bookings w
  /\ users w' = users w
  /\ withdrawals w' = withdrawals w
  /\ payments w' = payments w
  /\ services w' = services w
  /\ clock w' = clock w
  /\ match res with
     | inr _ => transactions w' = transactions w ++ [x]
                /\ Transaction.valid x = true
     | inl e => transactions w' = transactions w
                /\ (e = StoreFault "Transaction"
                    \/ (e = ValidationError "Transaction"
                        /\ Transaction.valid x = false))
     end.
Proof.
  unfold Transaction_create.
  destruct (Transaction.valid x) eqn:V; simpl;
    [destruct (ledgerFaults w) as [|[|] fs]; simpl|];
    intros [= <- <-]; simpl; repeat split; auto.
Qed.


(** ** The ledger effects of [updateBooking] *)

Section LedgerEffects.

Import Bookings.

(** The refund block appends the refund, then the compensation, each only
    when positive, and returns the booking with [refundAmount] set. *)
Lemma processRefund_fresh bid b who w w' b' :
  Booking.status b = cancelled ->
  Booking.cancelledBy b = Some who ->
  (Booking.paymentStatus b = refunded
   \/ Booking.paymentStatus b = partially_refunded) ->
  alreadyProcessed b = false ->
  processRefund bid b w = (w', inr b') ->
  let (refundAmount, providerCompensation) :=
    refundSplit who (Booking.totalAmount b) in
  b' = Booking.setRefundAmount refundAmount b
  /\ bookings w' = bookings w
  /\ transactions w' =
       transactions w
       ++ (if Qltb 0 refundAmount then [refundTx b' who refundAmount] else [])
       ++ (if Qltb 0 providerCompensation
           then [compensationTx b' providerCompensation] else []).
Proof.
  intros Hs Hc Hp Ha. unfold processRefund. rewrite Hs, Hc, Ha.
  assert (Hrun :
    (let (refundAmount, providerCompensation) :=
       refundSplit who (Booking.totalAmount b) in
     let b' := Booking.setRefundAmount refundAmount b in
     (if Qltb 0 refundAmount then
        Transaction_create (refundTx b' who refundAmount) ;;;
        modify (fun w =>
          withPayments
            (refundPayment bid (markRefunded b' who refundAmount (clock w))
               (payments w)) w)
      else ret tt) ;;;
     (if Qltb 0 providerCompensation then
        Transaction_create (compensationTx b' providerCompensation)
      else ret tt) ;;;
     ret b') w = (w', inr b') ->
    let (refundAmount, providerCompensation) :=
      refundSplit who (Booking.totalAmount b) in
    b' = Booking.setRefundAmount refundAmount b
    /\ bookings w' = bookings w
    /\ transactions w' =
         transactions w
         ++ (if Qltb 0 refundAmount then [refundTx b' who refundAmount]
             else [])
         ++ (if Qltb 0 providerCompensation
             then [compensationTx b' providerCompensation] else [])).
  { destruct (refundSplit who (Booking.totalAmount b)) as [r c].
    cbv zeta. unfold bind, modify, ret.
    destruct (Qltb 0 r) eqn:Er.
    - destruct (Transaction_create _ w) as [w1 [e|[]]] eqn:E1;
        [intros [= ]|].
      apply Transaction_create_inv in E1 as (B1 & _ & _ & _ & _ & _ & T1 & _).
      destruct (Qltb 0 c) eqn:Ec.
      + destruct (Transaction_create _ _) as [w2 [e|[]]] eqn:E2;
          [intros [= ]|].
        apply Transaction_create_inv in E2
          as (B2 & _ & _ & _ & _ & _ & T2 & _).
        simpl in B2, T2. intros [= <- <-].
        repeat split; [congruence|].
        rewrite T2, T1, <- app_assoc. reflexivity.
      + intros [= <- <-]. simpl. repeat split; [congruence|].
        rewrite T1. reflexivity.
    - destruct (Qltb 0 c) eqn:Ec.
      + destruct (Transaction_create _ _) as [w2 [e|[]]] eqn:E2;
          [intros [= ]|].
        apply Transaction_create_inv in E2
          as (B2 & _ & _ & _ & _ & _ & T2 & _).
        intros [= <- <-]. repeat split; assumption.
      + intros [= <- <-]. repeat split. rewrite app_nil_r. reflexivity. }
  destruct Hp as [-> | ->]; exact Hrun.
Qed.

(** Outside a first refunding cancellation the block does nothing. *)
Lemma processRefund_skip bid b w :
  (Booking.status b <> cancelled
   \/ Booking.cancelledBy b = None
   \/ (Booking.paymentStatus b <> refunded
       /\ Booking.paymentStatus b <> partially_refunded)
   \/ alreadyProcessed b = true) ->
  processRefund bid b w = (w, inr b).
Proof.
  unfold processRefund.
  destruct (Booking.status b), (Booking.cancelledBy b) as [who|],
    (Booking.paymentStatus b), (alreadyProcessed b);
    try reflexivity; intros [H|[H|[[H1 H2]|H]]]; congruence.
Qed.

(** Whatever its outcome, the block writes to the ledger and to the
    payments only. *)
Lemma processRefund_frame bid b w w' res :
  processRefund bid b w = (w', res) ->
  bookings w' = bookings w /\ services w' = services w
  /\ exists new, transactions w' = transactions w ++ new.
Proof.
  unfold processRefund.
  assert (Hnil : transactions w = transactions w ++ [])
    by (rewrite app_nil_r; reflexivity).
  destruct (Booking.status b); try (intros [= <- <-]; eauto; fail).
  destruct (Booking.cancelledBy b) as [who|];
    try (intros [= <- <-]; eauto; fail).
  assert (Hrun : forall m : M Booking.t,
    (m = ret b \/ m =
      (if alreadyProcessed b then ret b
       else
        let (refundAmount, providerCompensation) :=
          refundSplit who (Booking.totalAmount b) in
        let b' := Booking.setRefundAmount refundAmount b in
        (if Qltb 0 refundAmount then
           Transaction_create (refundTx b' who refundAmount) ;;;
           modify (fun w =>
             withPayments
               (refundPayment bid (markRefunded b' who refundAmount (clock w))
                  (payments w)) w)
         else ret tt) ;;;
        (if Qltb 0 providerCompensation then
           Transaction_create (compensationTx b' providerCompensation)
         else ret tt) ;;;
        ret b')) ->
    m w = (w', res) ->
    bookings w' = bookings w /\ services w' = services w
    /\ exists new, transactions w' = transactions w ++ new).
  { intros m [-> | ->]; [intros [= <- <-]; eauto|].
    destruct (alreadyProcessed b); [intros [= <- <-]; eauto|].
    destruct (refundSplit who (Booking.totalAmount b)) as [r c].
    cbv zeta. unfold bind, modify, ret.
    destruct (Qltb 0 r).
    - destruct (Transaction_create _ w) as [w1 [e|[]]] eqn:E1;
        apply Transaction_create_inv in E1
          as (B1 & _ & _ & _ & S1 & _ & T1).
      + destruct T1 as [T1 _]. intros [= <- <-]. rewrite T1. eauto.
      + destruct T1 as [T1 _]. destruct (Qltb 0 c).
        * destruct (Transaction_create _ _) as [w2 [e|[]]] eqn:E2;
            apply Transaction_create_inv in E2
              as (B2 & _ & _ & _ & S2 & _ & T2);
            simpl in B2, S2, T2; destruct T2 as [T2 _];
            intros [= <- <-]; rewrite B2, S2, T2, T1;
            repeat split; auto; rewrite <- ?app_assoc; eauto.
        * intros [= <- <-]. simpl. rewrite T1. eauto.
    - destruct (Qltb 0 c).
      + destruct (Transaction_create _ _) as [w2 [e|[]]] eqn:E2;
          apply Transaction_create_inv in E2
            as (B2 & _ & _ & _ & S2 & _ & T2);
          destruct T2 as [T2 _]; intros [= <- <-]; rewrite T2; eauto.
      + intros [= <- <-]. eauto. }
  destruct (Booking.paymentStatus b); apply Hrun; auto.
Qed.

End LedgerEffects.

Section Earning.

Import Bookings.

Lemma syncBookingCount_inv b w w' res :
  syncBookingCount b w = (w', res) ->
  res = inr tt /\ bookings w' = bookings w
  /\ transactions w' = transactions w.
Proof.
  unfold syncBookingCount, modify. intros [= <- <-].
  destruct (services w !! Booking.serviceId b); [|auto].
  destruct (Nat.eqb _ _); auto.
Qed.

Lemma processEarning_skip b w :
  (Booking.status b <> completed \/ Booking.paymentStatus b <> paid) ->
  processEarning b w = (w, inr tt).
Proof.
  unfold processEarning.
  destruct (Booking.status b), (Booking.paymentStatus b);
    try reflexivity; intros [H|H]; congruence.
Qed.


(** The earning block on a completed and paid booking: what it appends to
    the ledger, by the outcome of the lookup and of the write. *)
Lemma processEarning_inv b w w' res :
  Booking.status b = completed ->
  Booking.paymentStatus b = paid ->
  processEarning b w = (w', res) ->
  bookings w' = bookings w
  /\ match existingEarning b w with
     | Some _ => res = inr tt /\ transactions w' = transactions w
     | None =>
         match res with
         | inr _ => transactions w' = transactions w ++ [earningTx b]
                    /\ Transaction.valid (earningTx b) = true
         | inl e => transactions w' = transactions w
                    /\ (e = StoreFault "Transaction"
                        \/ (e = ValidationError "Transaction"
                            /\ Transaction.valid (earningTx b) = false))
         end
     end.
Proof.
  intros Hs Hp. unfold processEarning. rewrite Hs, Hp.
  unfold bind, gets, ret.
  destruct (existingEarning b w) as [x|].
  - intros H. apply syncBookingCount_inv in H as (-> & B & T). auto.
  - destruct (Transaction_create (earningTx b) w) as [w1 [e|[]]] eqn:E1;
      apply Transaction_create_inv in E1 as (B1 & _ & _ & _ & _ & _ & T1).
    + intros [= <- <-]. auto.
    + intros H. apply syncBookingCount_inv in H as (-> & B & T).
      split; [congruence|]. destruct T1 as [T1 V]. split; congruence.
Qed.

Lemma processEarning_frame b w w' res :
  processEarning b w = (w', res) ->
  bookings w' = bookings w
  /\ exists new, transactions w' = transactions w ++ new.
Proof.
  intros H.
  destruct (decide (Booking.status b = completed)) as [Hs|Hs];
    [destruct (decide (Booking.paymentStatus b = paid)) as [Hp|Hp]|].
  - destruct (processEarning_inv _ _ _ _ Hs Hp H) as [B T].
    split; [assumption|].
    destruct (existingEarning b w).
    + destruct T as [_ ->]. exists []. rewrite app_nil_r. reflexivity.
    + destruct res as [e|u]; destruct T as [-> _]; eauto.
      exists []. rewrite app_nil_r. reflexivity.
  - rewrite processEarning_skip in H by auto. injection H as <- <-.
    split; [reflexivity|]. exists []. rewrite app_nil_r. reflexivity.
  - rewrite processEarning_skip in H by auto. injection H as <- <-.
    split; [reflexivity|]. exists []. rewrite app_nil_r. reflexivity.
Qed.

End Earning.

(** ** [updateBooking] as a whole *)

Section UpdateBooking.

Import Bookings.

Lemma applyBody_reply u bd b0 r :
  applyBody u bd b0 = inr (inl r) -> code r = 400%nat.
Proof.
  unfold applyBody, applyStatus, applyPaymentStatus.
  destruct (applyNumeric bd b0); [discriminate|].
  destruct (status bd) as [s|];
    [destruct (parseStatus s) as [[| | |]|]|];
    (destruct (paymentStatus bd) as [p|];
     [destruct (parsePaymentStatus p)|]);
    intros [= <-]; reflexivity.
Qed.

Lemma updateBookingCatch_code e :
  code (updateBookingCatch e) = 400%nat \/ code (updateBookingCatch e) = 500%nat.
Proof.
  destruct e; simpl; auto. destruct (includes _ _); auto.
Qed.

(** The steps of a run that reaches the ledger effects. *)
Lemma updateBookingTry_run req w u b0 b :
  user req = Some u ->
  bookings w !! id req = Some b0 ->
  canAccessBooking b0 (Some u) = true ->
  applyBody u (body req) b0 = inr (inr b) ->
  updateBookingTry req w =
    match processRefund (id req) b w with
    | (w1, inl e) => (w1, inl e)
    | (w1, inr b') =>
        match processEarning b' w1 with
        | (w2, inl e) => (w2, inl e)
        | (w2, inr _) =>
            if Booking.valid b'
            then (withBookings (<[id req := b']> (bookings w2)) w2,
                  inr (mkResponse 200
                         (BookingData (id req) b' (findChatId (id req) w2))))
            else (w2, inl (ValidationError "Booking"))
        end
    end.
Proof.
  intros Hu Hb Ha He.
  unfold updateBookingTry.
  rewrite Hu. unfold bind at 1. unfold gets at 1. rewrite Hb, Ha, He. simpl.
  unfold bind at 1.
  destruct (processRefund (id req) b w) as [w1 [e|b']]; [reflexivity|].
  unfold bind at 1.
  destruct (processEarning b' w1) as [w2 [e|[]]]; [reflexivity|].
  unfold bind, Booking_save, gets, ret.
  destruct (Booking.valid b'); reflexivity.
Qed.

Lemma updateBooking_run req w u b0 b :
  user req = Some u ->
  bookings w !! id req = Some b0 ->
  canAccessBooking b0 (Some u) = true ->
  applyBody u (body req) b0 = inr (inr b) ->
  updateBooking req w =
    match processRefund (id req) b w with
    | (w1, inl e) => (w1, updateBookingCatch e)
    | (w1, inr b') =>
        match processEarning b' w1 with
        | (w2, inl e) => (w2, updateBookingCatch e)
        | (w2, inr _) =>
            if Booking.valid b'
            then (withBookings (<[id req := b']> (bookings w2)) w2,
                  mkResponse 200
                    (BookingData (id req) b' (findChatId (id req) w2)))
            else (w2, failure 400 "Validation failed")
        end
    end.
Proof.
  intros Hu Hb Ha He.
  unfold updateBooking, tryCatch.
  rewrite (updateBookingTry_run _ _ _ _ _ Hu Hb Ha He).
  destruct (processRefund (id req) b w) as [w1 [e|b']]; [reflexivity|].
  destruct (processEarning b' w1) as [w2 [e|[]]]; [reflexivity|].
  destruct (Booking.valid b'); reflexivity.
Qed.

(** A run that does not reach the ledger effects leaves the world as it
    was and answers with an error. *)
Lemma updateBooking_early req w :
  (forall u b0 b,
      user req = Some u -> bookings w !! id req = Some b0 ->
      canAccessBooking b0 (Some u) = true ->
      applyBody u (body req) b0 <> inr (inr b)) ->
  fst (updateBooking req w) = w
  /\ code (snd (updateBooking req w)) <> 200%nat.
Proof.
  intros H.
  destruct (updateBooking req w) as [w' r] eqn:E. simpl.
  unfold updateBooking, tryCatch, updateBookingTry in E.
  destruct (user req) as [u|] eqn:Hu;
    [|injection E as <- <-; split; [reflexivity|clear; simpl; lia]].
  unfold bind at 1 in E. unfold gets at 1 in E.
  destruct (bookings w !! id req) as [b0|] eqn:Hb;
    [|injection E as <- <-; split; [reflexivity|clear; simpl; lia]].
  destruct (canAccessBooking b0 (Some u)) eqn:Ha;
    [|injection E as <- <-; split; [reflexivity|clear; simpl; lia]].
  simpl in E.
  destruct (applyBody u (body req) b0) as [e|[r0|b]] eqn:He.
  - injection E as <- <-. split; [reflexivity|].
    destruct (updateBookingCatch_code e) as [-> | ->]; clear; lia.
  - injection E as <- <-. split; [reflexivity|].
    rewrite (applyBody_reply _ _ _ _ He). clear; lia.
  - exfalso. exact (H u b0 b eq_refl eq_refl Ha He).
Qed.

(** Every run only appends to the ledger, and only a run answered with 200
    writes the booking. *)
Lemma updateBooking_frame req w :
  (exists new,
      transactions (fst (updateBooking req w)) = transactions w ++ new)
  /\ (code (snd (updateBooking req w)) <> 200%nat ->
      bookings (fst (updateBooking req w)) = bookings w).
Proof.
  destruct (user req) as [u|] eqn:Hu.
  2:{ destruct (updateBooking_early req w) as [-> _]; [congruence|].
      split; [exists []; rewrite app_nil_r|]; reflexivity. }
  destruct (bookings w !! id req) as [b0|] eqn:Hb.
  2:{ destruct (updateBooking_early req w) as [-> _]; [congruence|].
      split; [exists []; rewrite app_nil_r|]; reflexivity. }
  destruct (canAccessBooking b0 (Some u)) eqn:Ha.
  2:{ destruct (updateBooking_early req w) as [-> _]; [congruence|].
      split; [exists []; rewrite app_nil_r|]; reflexivity. }
  destruct (applyBody u (body req) b0) as [e|[r|b]] eqn:He.
  1,2: destruct (updateBooking_early req w) as [-> _]; [congruence|];
       split; [exists []; rewrite app_nil_r|]; reflexivity.
  rewrite (updateBooking_run _ _ _ _ _ Hu Hb Ha He).
  destruct (processRefund (id req) b w) as [w1 [e|b']] eqn:E1;
    apply processRefund_frame in E1 as (B1 & _ & new1 & T1).
  - simpl. split; [eauto|auto].
  - destruct (processEarning b' w1) as [w2 [e|[]]] eqn:E2;
      apply processEarning_frame in E2 as (B2 & new2 & T2).
    + simpl. split; [|congruence].
      exists (new1 ++ new2). rewrite T2, T1, app_assoc. reflexivity.
    + destruct (Booking.valid b'); simpl.
      * split; [|intros Hc; exfalso; apply Hc; reflexivity].
        exists (new1 ++ new2). rewrite T2, T1, app_assoc. reflexivity.
      * split; [|congruence].
        exists (new1 ++ new2). rewrite T2, T1, app_assoc. reflexivity.
Qed.

End UpdateBooking.

Section BookingClaims.

Import Bookings.

Lemma updateBooking_cases req w :
  (fst (updateBooking req w) = w
   /\ code (snd (updateBooking req w)) <> 200%nat)
  \/ (exists u b0 b,
         user req = Some u /\ bookings w !! id req = Some b0
         /\ canAccessBooking b0 (Some u) = true
         /\ applyBody u (body req) b0 = inr (inr b)).
Proof.
  destruct (user req) as [u|] eqn:Hu;
    [|left; apply updateBooking_early; congruence].
  destruct (bookings w !! id req) as [b0|] eqn:Hb;
    [|left; apply updateBooking_early; congruence].
  destruct (canAccessBooking b0 (Some u)) eqn:Ha;
    [|left; apply updateBooking_early; congruence].
  destruct (applyBody u (body req) b0) as [e|[r|b]] eqn:He;
    [left; apply updateBooking_early; congruence
    |left; apply updateBooking_early; congruence|].
  right. exists u, b0, b. auto.
Qed.

(** C10.  [getBooking] answers every authenticated requester with the full
    booking and 200, whoever they are: the handler has no participant,
    ownership or role check, so an outsider reads any booking by its id. *)
Theorem getBooking_serves_any_authenticated_user
    (req : Request) (w : World) (u : AuthUser) (b : Booking.t) :
  user req = Some u ->
  bookings w !! id req = Some b ->
  getBooking req w
  = (w, mkResponse 200 (BookingData (id req) b (findChatId (id req) w))).
Proof.
  intros Hu Hb. unfold getBooking, tryCatch, bind, gets, ret.
  rewrite Hu. simpl. rewrite Hb. reflexivity.
Qed.

(** Carol, a customer who is no party to Alice's booking, reads it. *)
Lemma getBooking_serves_any_authenticated_user_witness :
  canAccessBooking (Sample.booking 1500) (Some Sample.carol) = false
  /\ getBooking (Sample.request Sample.carol "b-1" Sample.noChange)
       (Sample.world 1500)
     = (Sample.world 1500,
        mkResponse 200 (BookingData "b-1" (Sample.booking 1500) None)).
Proof.
  split; [reflexivity|].
  apply (getBooking_serves_any_authenticated_user
           (Sample.request Sample.carol "b-1" Sample.noChange)
           (Sample.world 1500) Sample.carol (Sample.booking 1500));
    reflexivity.
Defined.

(** C9.  A positive numeric [refundAmount] in the body is written to the
    booking before the refund block looks at it; with status ['cancelled']
    and paymentStatus ['refunded'] or ['partially_refunded'] in the same
    request the refund counts as processed: the ledger gets no transaction,
    and an accepted update stores the supplied amount. *)
Theorem body_refundAmount_suppresses_refund
    (req : Request) (w : World) (q : Q) :
  refundAmount (body req) = JNum q ->
  (0 < q)%Q ->
  status (body req) = Some "cancelled" ->
  (paymentStatus (body req) = Some "refunded"
   \/ paymentStatus (body req) = Some "partially_refunded") ->
  transactions (fst (updateBooking req w)) = transactions w
  /\ (code (snd (updateBooking req w)) = 200%nat ->
      exists b',
        bookings (fst (updateBooking req w)) !! id req = Some b'
        /\ Booking.refundAmount b' = Some q).
Proof.
  intros Hr Hq Hs Hp.
  destruct (updateBooking_cases req w)
    as [[-> Hc]|(u & b0 & b & Hu & Hb & Ha & He)];
    [split; [reflexivity|intros; contradiction]|].
  rewrite (updateBooking_run _ _ _ _ _ Hu Hb Ha He).
  destruct (applyBody_edited _ _ _ _ He) as [_ _ ER ES EP].
  rewrite Hr in ER. rewrite Hs in ES. simpl in ES.
  injection ES as ES1 ES2.
  assert (Hdone : alreadyProcessed b = true).
  { unfold alreadyProcessed. rewrite ER. apply Qltb_lt. assumption. }
  rewrite processRefund_skip by auto.
  rewrite processEarning_skip by (left; congruence).
  destruct (Booking.valid b); simpl.
  - split; [reflexivity|]. intros _. exists b.
    split; [apply lookup_insert_eq|assumption].
  - split; [reflexivity|]. clear. intros H. exfalso. lia.
Qed.

(** Bella cancels Alice's booking of 1000 and sends [refundAmount: 700]
    with it: the update is accepted, 700 is stored, nothing is paid. *)
Lemma body_refundAmount_suppresses_refund_witness :
  let req := Sample.request Sample.bella "b-1"
               (Sample.refundBody "cancelled" "refunded" 700) in
  code (snd (updateBooking req (Sample.world 1000))) = 200%nat
  /\ transactions (fst (updateBooking req (Sample.world 1000))) = []
  /\ exists b',
       bookings (fst (updateBooking req (Sample.world 1000))) !! "b-1"
       = Some b'
       /\ Booking.refundAmount b' = Some 700%Q.
Proof.
  intros req.
  destruct (body_refundAmount_suppresses_refund req (Sample.world 1000) 700)
    as [T B];
    [reflexivity | reflexivity | reflexivity | left; reflexivity |].
  split; [reflexivity|]. split; [exact T|]. apply B. reflexivity.
Defined.





(** The store refuses the compensation after it took the refund: the
    update is answered 500 and the booking is still confirmed, with the
    refund of 500 on the ledger. *)
Example compensation_fault_fails_update :
  let req := Sample.request Sample.alice "b-1"
               (Sample.statusBody "cancelled" "refunded") in
  let run := updateBooking req (Sample.failing 1001) in
  fst (updateBookingTry req (Sample.failing 1001))
  = fst run
  /\ snd (updateBookingTry req (Sample.failing 1001))
     = inl (StoreFault "Transaction")
  /\ snd run = failure 500 "Server error"
  /\ bookings (fst run) !! "b-1" = Some (Sample.booking 1001)
  /\ List.map Transaction.amount (transactions (fst run)) = [500%Q].
Proof. repeat split. Qed.




(** C3, as the code has it.  Take a booking with no refund recorded and a
    request, carrying no [refundAmount] of its own, that cancels it with
    paymentStatus ['refunded'] or ['partially_refunded'], where the refund
    computed is positive: the provider cancels a positive [totalAmount], or
    the customer cancels a [totalAmount] of at least 2.  If the first call
    is accepted, the two calls in sequence append exactly one refund and at
    most one compensation, and the second call appends nothing. *)
Theorem refund_replay_creates_nothing_more
    (req : Request) (w w1 : World) (r1 : Response) (u : AuthUser)
    (b0 : Booking.t) :
  user req = Some u ->
  bookings w !! id req = Some b0 ->
  alreadyProcessed b0 = false ->
  refundAmount (body req) = JUndefined ->
  status (body req) = Some "cancelled" ->
  (paymentStatus (body req) = Some "refunded"
   \/ paymentStatus (body req) = Some "partially_refunded") ->
  (let total := match totalAmount (body req) with
                | JNum q => q
                | _ => Booking.totalAmount b0
                end in
   match inferred u (body req) with
   | byProvider => (0 < total)%Q
   | byCustomer => (2 <= total)%Q
   end) ->
  updateBooking req w = (w1, r1) ->
  code r1 = 200%nat ->
  exists new,
    transactions w1 = transactions w ++ new
    /\ length (List.filter isRefund new) = 1%nat
    /\ (length (List.filter isCompensation new) <= 1)%nat
    /\ transactions (fst (updateBooking req w1)) = transactions w1.
Proof.
  intros Hu Hb Hn Hr Hs Hp Hpos Hrun Hcode.
  (* the first call *)
  destruct (updateBooking_cases req w)
    as [[_ Hc]|(u' & b0' & b & Hu' & Hb' & Ha & He)].
  { rewrite Hrun in Hc. simpl in Hc. contradiction. }
  assert (u' = u) as -> by congruence.
  assert (b0' = b0) as -> by congruence.
  destruct (applyBody_edited _ _ _ _ He) as [EP ET ER ES EY].
  rewrite Hr in ER. rewrite Hs in ES. simpl in ES. injection ES as ES1 ES2.
  assert (Hpay : Booking.paymentStatus b = refunded
                 \/ Booking.paymentStatus b = partially_refunded).
  { destruct Hp as [Hp|Hp]; rewrite Hp in EY; simpl in EY; auto. }
  assert (Hnb : alreadyProcessed b = false).
  { unfold alreadyProcessed in *. rewrite ER. exact Hn. }
  rewrite (updateBooking_run _ _ _ _ _ Hu Hb Ha He) in Hrun.
  destruct (processRefund (id req) b w) as [w' [e|b1]] eqn:E1.
  { injection Hrun as <- <-. exfalso.
    destruct (updateBookingCatch_code e) as [H|H]; rewrite H in Hcode;
      clear - Hcode; lia. }
  pose proof (processRefund_fresh _ _ _ _ _ _ ES1 ES2 Hpay Hnb E1) as F.
  assert (Hpos' : (0 < fst (refundSplit (inferred u (body req))
                                (Booking.totalAmount b)))%Q).
  { rewrite ET. cbv zeta in Hpos.
    destruct (inferred u (body req)); simpl;
      [apply floor_half_pos|]; exact Hpos. }
  destruct (refundSplit (inferred u (body req)) (Booking.totalAmount b))
    as [refund comp].
  simpl in Hpos'. destruct F as (Hb1 & _ & T1).
  apply Qltb_lt in Hpos'. rewrite Hpos' in T1.
  assert (Hskip : processEarning b1 w' = (w', inr tt)).
  { apply processEarning_skip. left. rewrite Hb1. simpl. congruence. }
  rewrite Hskip in Hrun.
  destruct (Booking.valid b1);
    [|injection Hrun as <- <-; exfalso; clear - Hcode; simpl in Hcode; lia].
  injection Hrun as <- <-.
  eexists. split; [exact T1|].
  split; [destruct (Qltb 0 comp); reflexivity|].
  split; [destruct (Qltb 0 comp); simpl; lia|].
  (* the second call *)
  set (w1 := withBookings (<[id req:=b1]> (bookings w')) w').
  destruct (updateBooking_cases req w1)
    as [[-> _]|(u2 & b02 & b2 & Hu2 & Hb2 & Ha2 & He2)]; [reflexivity|].
  rewrite (updateBooking_run _ _ _ _ _ Hu2 Hb2 Ha2 He2).
  assert (b02 = b1) as ->.
  { unfold w1 in Hb2. simpl in Hb2. rewrite lookup_insert_eq in Hb2.
    congruence. }
  destruct (applyBody_edited _ _ _ _ He2) as [_ _ ER2 ES2' _].
  rewrite Hr in ER2. rewrite Hs in ES2'. simpl in ES2'.
  injection ES2' as ES3 ES4.
  assert (Hdone : alreadyProcessed b2 = true).
  { unfold alreadyProcessed. rewrite ER2, Hb1. simpl. exact Hpos'. }
  rewrite processRefund_skip by auto.
  rewrite processEarning_skip by (left; congruence).
  destruct (Booking.valid b2); reflexivity.
Qed.

(** The provider cancels a booking of 1000, twice. *)
Lemma refund_replay_creates_nothing_more_witness :
  let req := Sample.request Sample.bella "b-1"
               (Sample.statusBody "cancelled" "refunded") in
  let w1 := fst (updateBooking req (Sample.world 1000)) in
  exists new,
    transactions w1 = [] ++ new
    /\ length (List.filter isRefund new) = 1%nat
    /\ (length (List.filter isCompensation new) <= 1)%nat
    /\ transactions (fst (updateBooking req w1)) = transactions w1.
Proof.
  intros req w1.
  apply (refund_replay_creates_nothing_more req (Sample.world 1000) w1
           (snd (updateBooking req (Sample.world 1000))) Sample.bella
           (Sample.booking 1000));
    [reflexivity | reflexivity | reflexivity | reflexivity | reflexivity
    | left; reflexivity | reflexivity | reflexivity | reflexivity].
Defined.

(** C3 as stated fails at [totalAmount = 0]: both calls are accepted and
    the ledger holds no refund transaction, where the claim has exactly
    one. *)
Lemma free_booking_cancellation_has_no_refund :
  let req := Sample.request Sample.bella "b-1"
               (Sample.statusBody "cancelled" "refunded") in
  let first := updateBooking req (Sample.world 0) in
  let second := updateBooking req (fst first) in
  code (snd first) = 200%nat
  /\ code (snd second) = 200%nat
  /\ List.filter isRefund (transactions (fst second)) = [].
Proof. repeat split. Qed.

(** The guard of the refund block reads [refundAmount] only.  A customer
    who cancels a booking of 1 is refunded [floor(0.5) = 0], which leaves
    the guard open: the replay of the request pays the provider's
    compensation of 1 a second time. *)
Lemma small_customer_cancellation_replay_compensates_twice :
  let req := Sample.request Sample.alice "b-1"
               (Sample.statusBody "cancelled" "refunded") in
  let first := updateBooking req (Sample.world 1) in
  let second := updateBooking req (fst first) in
  code (snd first) = 200%nat
  /\ code (snd second) = 200%nat
  /\ List.map Transaction.amount
       (List.filter isCompensation (transactions (fst second)))
     = [1%Q; 1%Q].
Proof. repeat split. Qed.



End BookingClaims.

(** ** The wallet *)

Section WalletClaims.

Import Wallet.


Lemma findUserById_Some userId w x :
  findUserById userId w = Some x -> users w !! userId = Some x.
Proof.
  unfold findUserById. destruct (String.eqb userId ""); [discriminate|auto].
Qed.





(** The same happens to a payment whose [status] is outside the schema's
    enum. *)
Lemma rejected_status_leaves_no_record :
  let req := Wallet.mkRequest (Some Sample.alice)
               (Wallet.mkBody (JNum 20) None None (Some "bogus") None None
                  (Some "bella")) in
  let run := paymentTransaction true req Sample.wallets in
  snd run = failure 400 "Validation failed"
  /\ transactions (fst run) = []
  /\ storedBalance "alice" (fst run) = Some (120 - 20)%Q.
Proof. repeat split. Qed.

End WalletClaims.

(** ** Withdrawals *)

Section WithdrawalClaims.

Import Withdrawals.






End WithdrawalClaims.

(** ** Review aggregation *)

Section ReviewClaims.

Import Reviews.



Lemma updateServiceReviewStats_total sid w :
  snd (updateServiceReviewStats sid w) = inr tt.
Proof.
  unfold updateServiceReviewStats. destruct (String.eqb sid ""); reflexivity.
Qed.


Lemma createReview_created uuid req w w' r :
  createReview uuid req w = (w', mkResponse 201 (ReviewData r)) ->
  Review.valid r = true
  /\ w' = fst (updateServiceReviewStats (Review.serviceId r)
                 (withReviews (<[uuid := r]> (reviews w)) w)).
Proof.
  unfold createReview, tryCatch. intros H.
  destruct (user req) as [u|]; [|discriminate H].
  destruct (bool_decide (utype u = provider)); [discriminate H|].
  destruct (truthy (bookingId (body req))) as [bid|]; [|discriminate H].
  unfold bind at 1 in H. unfold gets at 1 in H.
  destruct (match serviceId (body req) with
            | Some sid => services w !! sid
            | None => None
            end); [|discriminate H].
  unfold bind at 1 in H. unfold gets at 1 in H.
  destruct (bookings w !! bid) as [bk|]; [|discriminate H].
  destruct (negb _); [discriminate H|].
  destruct (String.eqb (uid u) ""); [discriminate H|].
  destruct (_ && _); [discriminate H|].
  destruct (_ && _); [discriminate H|].
  destruct (String.eqb (Booking.customerId bk) ""); [discriminate H|].
  destruct (toNumber (rating (body req))) as [rt|]; [|discriminate H].
  unfold bind at 1 in H. unfold Review_create at 1 in H.
  destruct (negb (Review.valid _)) eqn:V; [discriminate H|].
  destruct (_ || _); [discriminate H|].
  unfold bind, ret in H.
  destruct (updateServiceReviewStats _ _) as [w2 [e|[]]] eqn:E;
    [apply (f_equal snd) in E; rewrite updateServiceReviewStats_total in E;
     discriminate E|].
  injection H as <- <-. apply negb_false_iff in V.
  split; [exact V|]. apply (f_equal fst) in E. symmetry. exact E.
Qed.


Lemma deleteReview_deleted req w w' message :
  deleteReview req w = (w', mkResponse 200 (Message message)) ->
  exists old,
    reviews w !! id req = Some old
    /\ w' = fst (updateServiceReviewStats (Review.serviceId old)
                   (withReviews (delete (id req) (reviews w)) w)).
Proof.
  unfold deleteReview, tryCatch. intros H.
  destruct (user req) as [u|]; [|discriminate H].
  unfold bind at 1 in H. unfold gets at 1 in H.
  destruct (reviews w !! id req) as [old|]; [|discriminate H].
  destruct (_ && _); [discriminate H|].
  unfold bind, modify, ret in H.
  destruct (updateServiceReviewStats _ _) as [w2 [e|[]]] eqn:E;
    [apply (f_equal snd) in E; rewrite updateServiceReviewStats_total in E;
     discriminate E|].
  injection H as <- _. exists old. split; [reflexivity|].
  apply (f_equal fst) in E. symmetry. exact E.
Qed.



(** The spec's scenario: ratings 5 and 4 give 4.5 over 2 reviews; without
    the first review the service has 4 over 1; without both, 0 over 0. *)
Example review_aggregation_scenario :
  let w1 := fst (createReview "r-1" (Sample.review Sample.alice "b-1" 5)
                   Sample.reviewed) in
  let w2 := fst (createReview "r-2" (Sample.review Sample.carol "b-2" 4)
                   w1) in
  let w3 := fst (deleteReview
                   (Sample.rerate Sample.alice "r-1" 0) w2) in
  let w4 := fst (deleteReview
                   (Sample.rerate Sample.carol "r-2" 0) w3) in
  let stats w :=
    match services w !! "svc-1" with
    | Some s => Some (Qred (Service.rating s), Service.reviewCount s)
    | None => None
    end in
  stats w2 = Some (9 # 2, 2%nat)
  /\ stats w3 = Some (4 # 1, 1%nat)
  /\ stats w4 = Some (0 # 1, 0%nat).
Proof. vm_compute. repeat split. Qed.

End ReviewClaims.

(** ** The split of a cancellation and the commission *)

Section Splits.

Import Bookings.

Lemma floor_le (x : Q) : (floor x <= x)%Q.
Proof. unfold floor. apply Qfloor_le. Qed.

Lemma floor_nonneg (x : Q) : (0 <= x)%Q -> (0 <= floor x)%Q.
Proof.
  intros H. unfold floor.
  assert (Hz : (Qfloor 0 <= Qfloor x)%Z) by (apply Qfloor_resp_le; exact H).
  change (Qfloor 0) with 0%Z in Hz.
  unfold Qle, inject_Z. cbn [Qnum Qden]. lia.
Qed.

Lemma floor_gt (x : Q) : (x - 1 < floor x)%Q.
Proof.
  unfold floor. pose proof (Qlt_floor x) as H.
  rewrite inject_Z_plus in H. change (inject_Z 1) with 1%Q in H. lra.
Qed.

(** X1.  The split of a cancelled booking's amount loses and creates no
    money: the refund and the compensation are never negative and add up to
    the amount.  A cancelling provider returns all of it; a cancelling
    customer gets back a whole number, at most half, and the provider the
    rest, which is less than a unit above half. *)
Theorem refundSplit_conserves (who : CancelledBy) (total : Q) :
  (0 <= total)%Q ->
  let (refund, compensation) := refundSplit who total in
  (refund + compensation == total)%Q
  /\ (0 <= refund)%Q
  /\ (0 <= compensation)%Q
  /\ match who with
     | byProvider => (refund == total)%Q
     | byCustomer =>
         (exists n : Z, refund = inject_Z n)
         /\ (refund <= total * (1 # 2))%Q
         /\ (total * (1 # 2) <= compensation)%Q
         /\ (compensation < total * (1 # 2) + 1)%Q
     end.
Proof.
  intros H. destruct who; unfold refundSplit.
  - pose proof (floor_le (total * (1 # 2))) as Hle.
    pose proof (floor_gt (total * (1 # 2))) as Hgt.
    assert (Hn : (0 <= floor (total * (1 # 2)))%Q)
      by (apply floor_nonneg; lra).
    repeat split; try lra.
    exists (Qfloor (total * (1 # 2))). reflexivity.
  - repeat split; lra.
Qed.

Lemma refundSplit_conserves_witness :
  let (refund, compensation) := refundSplit byCustomer 1001 in
  (refund + compensation == 1001)%Q
  /\ (0 <= refund)%Q
  /\ (0 <= compensation)%Q
  /\ (exists n : Z, refund = inject_Z n)
  /\ (refund <= 1001 * (1 # 2))%Q
  /\ (1001 * (1 # 2) <= compensation)%Q
  /\ (compensation < 1001 * (1 # 2) + 1)%Q.
Proof.
  apply (refundSplit_conserves byCustomer 1001). vm_compute. discriminate.
Defined.



End Splits.

(** ** What [updateBooking] leaves alone *)

Section UpdateBookingMore.

Import Bookings.

Ltac run_cases :=
  repeat match goal with
         | |- context [match ?x with _ => _ end] => destruct x eqn:?
         | |- context [if ?x then _ else _] => destruct x eqn:?
         end.

Lemma Transaction_create_bystanders x w w' res :
  Transaction_create x w = (w', res) -> bystanders w' = bystanders w.
Proof.
  unfold Transaction_create. run_cases; intros [= <- <-]; reflexivity.
Qed.

Lemma processRefund_bystanders bid b w w' res :
  processRefund bid b w = (w', res) -> bystanders w' = bystanders w.
Proof.
  unfold processRefund.
  destruct (Booking.status b); try (intros [= <- <-]; reflexivity).
  destruct (Booking.cancelledBy b) as [who|];
    try (intros [= <- <-]; reflexivity).
  assert (Hrun : forall m : M Booking.t,
    (m = ret b \/ m =
      (if alreadyProcessed b then ret b
       else
        let (refundAmount, providerCompensation) :=
          refundSplit who (Booking.totalAmount b) in
        let b' := Booking.setRefundAmount refundAmount b in
        (if Qltb 0 refundAmount then
           Transaction_create (refundTx b' who refundAmount) ;;;
           modify (fun w =>
             withPayments
               (refundPayment bid (markRefunded b' who refundAmount (clock w))
                  (payments w)) w)
         else ret tt) ;;;
        (if Qltb 0 providerCompensation then
           Transaction_create (compensationTx b' providerCompensation)
         else ret tt) ;;;
        ret b')) ->
    m w = (w', res) -> bystanders w' = bystanders w).
  { intros m [-> | ->]; [intros [= <- <-]; reflexivity|].
    destruct (alreadyProcessed b); [intros [= <- <-]; reflexivity|].
    destruct (refundSplit who (Booking.totalAmount b)) as [r c].
    cbv zeta. unfold bind, modify, ret.
    destruct (Qltb 0 r).
    - destruct (Transaction_create _ w) as [w1 [e|[]]] eqn:E1;
        apply Transaction_create_bystanders in E1.
      + intros [= <- <-]. exact E1.
      + destruct (Qltb 0 c).
        * destruct (Transaction_create _ _) as [w2 [e|[]]] eqn:E2;
            apply Transaction_create_bystanders in E2;
            intros [= <- <-]; rewrite E2; exact E1.
        * intros [= <- <-]. exact E1.
    - destruct (Qltb 0 c).
      + destruct (Transaction_create _ _) as [w2 [e|[]]] eqn:E2;
          apply Transaction_create_bystanders in E2;
          intros [= <- <-]; exact E2.
      + intros [= <- <-]. reflexivity. }
  destruct (Booking.paymentStatus b); apply Hrun; auto.
Qed.

Lemma syncBookingCount_bystanders b w w' res :
  syncBookingCount b w = (w', res) -> bystanders w' = bystanders w.
Proof.
  unfold syncBookingCount, modify. intros [= <- <-].
  destruct (services w !! Booking.serviceId b); [|reflexivity].
  destruct (Nat.eqb _ _); reflexivity.
Qed.

Lemma processEarning_bystanders b w w' res :
  processEarning b w = (w', res) -> bystanders w' = bystanders w.
Proof.
  unfold processEarning.
  destruct (Booking.status b); try (intros [= <- <-]; reflexivity).
  destruct (Booking.paymentStatus b); try (intros [= <- <-]; reflexivity).
  unfold bind, gets, ret.
  destruct (existingEarning b w).
  - apply syncBookingCount_bystanders.
  - destruct (Transaction_create _ w) as [w1 [e|[]]] eqn:E1;
      apply Transaction_create_bystanders in E1.
    + intros [= <- <-]. exact E1.
    + intros H. apply syncBookingCount_bystanders in H. congruence.
Qed.

(** X3.  Whatever the request and its outcome, [updateBooking] only appends
    to the ledger, writes no booking but the one it was asked for, and that
    one only when it answers 200; it never touches the users, the reviews,
    the withdrawals or the chats. *)
Theorem updateBooking_writes_one_booking_and_appends
    (req : Request) (w : World) :
  let w' := fst (updateBooking req w) in
  (exists new, transactions w' = transactions w ++ new)
  /\ (forall k, k <> id req -> bookings w' !! k = bookings w !! k)
  /\ (code (snd (updateBooking req w)) <> 200%nat ->
      bookings w' = bookings w)
  /\ users w' = users w
  /\ reviews w' = reviews w
  /\ withdrawals w' = withdrawals w
  /\ chats w' = chats w.
Proof.
  cbv zeta.
  assert (Hby : bystanders (fst (updateBooking req w)) = bystanders w
                /\ forall k, k <> id req ->
                     bookings (fst (updateBooking req w)) !! k
                     = bookings w !! k).
  { destruct (updateBooking_cases req w) as [[-> _]|(u & b0 & b & Hu & Hb & Ha & He)];
      [split; reflexivity|].
    rewrite (updateBooking_run _ _ _ _ _ Hu Hb Ha He).
    destruct (processRefund (id req) b w) as [w1 [e|b']] eqn:E1.
    - pose proof (processRefund_bystanders _ _ _ _ _ E1) as Y1.
      apply processRefund_frame in E1 as (B1 & _). simpl.
      split; [assumption|]. intros k _. rewrite B1. reflexivity.
    - pose proof (processRefund_bystanders _ _ _ _ _ E1) as Y1.
      apply processRefund_frame in E1 as (B1 & _).
      destruct (processEarning b' w1) as [w2 [e|[]]] eqn:E2;
        pose proof (processEarning_bystanders _ _ _ _ E2) as Y2;
        apply processEarning_frame in E2 as (B2 & _).
      + simpl. split; [congruence|]. intros k _. congruence.
      + destruct (Booking.valid b'); simpl.
        * split; [unfold bystanders in *; simpl; congruence|].
          intros k Hk. rewrite lookup_insert_ne by congruence. congruence.
        * split; [congruence|]. intros k _. congruence. }
  destruct Hby as [Hby Hk].
  destruct (updateBooking_frame req w) as [Hl Hb].
  unfold bystanders in Hby. injection Hby as Hu Hr Hw Hc _.
  repeat split; assumption.
Qed.

End UpdateBookingMore.

(** ** The replies of [updateBooking] *)

Section UpdateBookingReplies.

Import Bookings.

(** The reply of a run that reaches the ledger effects. *)
Lemma updateBooking_run_code req w u b0 b :
  user req = Some u ->
  bookings w !! id req = Some b0 ->
  canAccessBooking b0 (Some u) = true ->
  applyBody u (body req) b0 = inr (inr b) ->
  code (snd (updateBooking req w)) = 200%nat
  \/ code (snd (updateBooking req w)) = 400%nat
  \/ code (snd (updateBooking req w)) = 500%nat.
Proof.
  intros Hu Hb Ha He.
  rewrite (updateBooking_run _ _ _ _ _ Hu Hb Ha He).
  destruct (processRefund (id req) b w) as [w1 [e|b']].
  - simpl. destruct (updateBookingCatch_code e); auto.
  - destruct (processEarning b' w1) as [w2 [e|[]]].
    + simpl. destruct (updateBookingCatch_code e); auto.
    + destruct (Booking.valid b'); simpl; auto.
Qed.

(** X4.  [updateBooking] answers 401 exactly to a request without a user,
    404 exactly when the booking does not exist, and 403 exactly when the
    booking exists and the caller is neither an admin nor one of its two
    parties; these three answers leave the world as it was, and there is no
    answer beside them but 200, 400 and 500. *)
Theorem updateBooking_refusals (req : Request) (w : World) :
  let r := snd (updateBooking req w) in
  (code r = 401%nat <-> user req = None)
  /\ (code r = 404%nat <->
      user req <> None /\ bookings w !! id req = None)
  /\ (code r = 403%nat <->
      exists u b0,
        user req = Some u /\ bookings w !! id req = Some b0
        /\ utype u <> admin
        /\ Booking.customerId b0 <> uid u
        /\ Booking.providerId b0 <> uid u)
  /\ (code r = 401%nat \/ code r = 403%nat \/ code r = 404%nat ->
      fst (updateBooking req w) = w)
  /\ (code r = 200%nat \/ code r = 400%nat \/ code r = 401%nat
      \/ code r = 403%nat \/ code r = 404%nat \/ code r = 500%nat).
Proof.
  cbv zeta.
  destruct (user req) as [u|] eqn:Hu.
  2:{ assert (E : updateBooking req w = (w, failure 401 "Not authenticated")).
      { unfold updateBooking, tryCatch, updateBookingTry. rewrite Hu.
        reflexivity. }
      rewrite E. simpl. split; [|split; [|split; [|split]]].
      - split; reflexivity.
      - split; [clear; lia|intros [H _]; congruence].
      - split; [clear; lia|intros (? & ? & ? & _); congruence].
      - reflexivity.
      - auto 10. }
  destruct (bookings w !! id req) as [b0|] eqn:Hb.
  2:{ assert (E : updateBooking req w = (w, failure 404 "Booking not found")).
      { unfold updateBooking, tryCatch, updateBookingTry. rewrite Hu.
        unfold bind, gets. rewrite Hb. reflexivity. }
      rewrite E. simpl. split; [|split; [|split; [|split]]].
      - split; [clear; lia|congruence].
      - split; [intros _; split; congruence|reflexivity].
      - split; [clear; lia|intros (? & ? & _ & ? & _); congruence].
      - reflexivity.
      - auto 10. }
  destruct (canAccessBooking b0 (Some u)) eqn:Ha.
  2:{ assert (E : updateBooking req w = (w, failure 403 "Forbidden")).
      { unfold updateBooking, tryCatch, updateBookingTry. rewrite Hu.
        unfold bind, gets. rewrite Hb, Ha. reflexivity. }
      rewrite E. simpl. split; [|split; [|split; [|split]]].
      - split; [clear; lia|congruence].
      - split; [clear; lia|intros [_ H]; congruence].
      - split; [|reflexivity]. intros _. exists u, b0.
        unfold canAccessBooking, currentUserId in Ha.
        destruct (utype u) eqn:Ht;
          try discriminate;
          apply orb_false_elim in Ha as [H1 H2];
          apply String.eqb_neq in H1, H2; repeat split; congruence.
      - reflexivity.
      - auto 10. }
  assert (Hin : ~ exists u' b0',
             Some u = Some u' /\ Some b0 = Some b0'
             /\ utype u' <> admin
             /\ Booking.customerId b0' <> uid u'
             /\ Booking.providerId b0' <> uid u').
  { intros (u' & b0' & [= <-] & [= <-] & Ht & Hc & Hp).
    unfold canAccessBooking, currentUserId in Ha.
    destruct (utype u); try congruence;
      apply orb_true_iff in Ha as [H|H]; apply String.eqb_eq in H;
      congruence. }
  assert (Hcode : code (snd (updateBooking req w)) = 200%nat
                  \/ code (snd (updateBooking req w)) = 400%nat
                  \/ code (snd (updateBooking req w)) = 500%nat).
  { destruct (applyBody u (body req) b0) as [e|[r|b]] eqn:He.
    - assert (E : updateBooking req w = (w, updateBookingCatch e)).
      { unfold updateBooking, tryCatch, updateBookingTry. rewrite Hu.
        unfold bind, gets. rewrite Hb, Ha, He. reflexivity. }
      rewrite E. simpl. destruct (updateBookingCatch_code e); auto.
    - assert (E : updateBooking req w = (w, r)).
      { unfold updateBooking, tryCatch, updateBookingTry. rewrite Hu.
        unfold bind, gets. rewrite Hb, Ha, He. reflexivity. }
      rewrite E. simpl. rewrite (applyBody_reply _ _ _ _ He). auto.
    - exact (updateBooking_run_code _ _ _ _ _ Hu Hb Ha He). }
  split; [|split; [|split; [|split]]].
  - split; [intros H; exfalso; clear - H Hcode; lia|congruence].
  - split; [intros H; exfalso; clear - H Hcode; lia
           |intros [_ H]; congruence].
  - split; [intros H; exfalso; clear - H Hcode; lia
           |intros H; exfalso; exact (Hin H)].
  - intros H. exfalso. clear - H Hcode. lia.
  - clear - Hcode. lia.
Qed.

(** What [processRefund] returns is the booking it was given, but for
    [refundAmount]. *)
Lemma processRefund_result bid b w w' b' :
  processRefund bid b w = (w', inr b') ->
  b' = b \/ exists r, b' = Booking.setRefundAmount r b.
Proof.
  intros H.
  destruct (decide (Booking.status b = cancelled)) as [Hs|Hs];
    [|rewrite processRefund_skip in H by auto; injection H as _ <-; auto].
  destruct (Booking.cancelledBy b) as [who|] eqn:Hc;
    [|rewrite processRefund_skip in H by auto; injection H as _ <-; auto].
  destruct (alreadyProcessed b) eqn:Hp;
    [rewrite processRefund_skip in H by auto; injection H as _ <-; auto|].
  destruct (decide (Booking.paymentStatus b = refunded)) as [Hr|Hr].
  - pose proof (processRefund_fresh _ _ _ _ _ _ Hs Hc (or_introl Hr) Hp H)
      as Hf.
    destruct (refundSplit who (Booking.totalAmount b)) as [r c].
    destruct Hf as [-> _]. eauto.
  - destruct (decide (Booking.paymentStatus b = partially_refunded))
      as [Hq|Hq].
    + pose proof (processRefund_fresh _ _ _ _ _ _ Hs Hc (or_intror Hq) Hp H)
        as Hf.
      destruct (refundSplit who (Booking.totalAmount b)) as [r c].
      destruct Hf as [-> _]. eauto.
    + rewrite processRefund_skip in H by auto. injection H as _ <-; auto.
Qed.

(** A status that the enumeration does not know is answered before the
    ledger effects. *)
Lemma applyBody_status_parsed u bd b0 b s :
  applyBody u bd b0 = inr (inr b) ->
  status bd = Some s ->
  parseStatus s <> None.
Proof.
  unfold applyBody, applyStatus. intros H Hs Hp.
  destruct (applyNumeric bd b0); [discriminate|].
  rewrite Hs, Hp in H. discriminate.
Qed.

(** A run answered with 200, step by step. *)
Lemma updateBooking_ok req w :
  code (snd (updateBooking req w)) = 200%nat ->
  exists u b0 b b' w2,
    user req = Some u
    /\ bookings w !! id req = Some b0
    /\ canAccessBooking b0 (Some u) = true
    /\ applyBody u (body req) b0 = inr (inr b)
    /\ (b' = b \/ exists r, b' = Booking.setRefundAmount r b)
    /\ Booking.valid b' = true
    /\ bookings w2 = bookings w
    /\ chats w2 = chats w
    /\ updateBooking req w
       = (withBookings (<[id req := b']> (bookings w2)) w2,
          mkResponse 200 (BookingData (id req) b' (findChatId (id req) w2))).
Proof.
  intros Hcode.
  destruct (updateBooking_cases req w)
    as [[_ Hne]|(u & b0 & b & Hu & Hb & Ha & He)]; [congruence|].
  pose proof (updateBooking_run _ _ _ _ _ Hu Hb Ha He) as Hrun.
  rewrite Hrun in Hcode.
  destruct (processRefund (id req) b w) as [w1 [e|b']] eqn:E1.
  { simpl in Hcode. exfalso.
    destruct (updateBookingCatch_code e) as [H|H]; rewrite H in Hcode;
      clear - Hcode; lia. }
  destruct (processEarning b' w1) as [w2 [e|[]]] eqn:E2.
  { simpl in Hcode. exfalso.
    destruct (updateBookingCatch_code e) as [H|H]; rewrite H in Hcode;
      clear - Hcode; lia. }
  destruct (Booking.valid b') eqn:V;
    [|simpl in Hcode; exfalso; clear - Hcode; lia].
  pose proof (processRefund_result _ _ _ _ _ E1) as Hres.
  pose proof (processRefund_bystanders _ _ _ _ _ E1) as Y1.
  pose proof (processEarning_bystanders _ _ _ _ E2) as Y2.
  apply processRefund_frame in E1 as (B1 & _).
  apply processEarning_frame in E2 as (B2 & _).
  exists u, b0, b, b', w2.
  repeat split; try assumption; try congruence.
  unfold bystanders in *. congruence.
Qed.

(** X5.  An update answered with 200 stores what it answers, under the id
    it was asked for: a booking with the customer, the provider, the service
    and the service name it had before, which passes the validators of the
    schema. *)
Theorem updateBooking_success_keeps_parties (req : Request) (w : World) :
  code (snd (updateBooking req w)) = 200%nat ->
  exists b0 b',
    bookings w !! id req = Some b0
    /\ bookings (fst (updateBooking req w)) = <[id req := b']> (bookings w)
    /\ payload (snd (updateBooking req w))
       = BookingData (id req) b' (findChatId (id req) w)
    /\ parties b' = parties b0
    /\ Booking.valid b' = true.
Proof.
  intros Hcode.
  destruct (updateBooking_ok req w Hcode)
    as (u & b0 & b & b' & w2 & Hu & Hb & Ha & He & Hres & V & B2 & C2 & Hrun).
  rewrite Hrun. simpl. exists b0, b'. repeat split; try assumption.
  - rewrite B2. reflexivity.
  - unfold findChatId. rewrite C2. reflexivity.
  - apply applyBody_edited in He. destruct He as [P _ _ _ _].
    destruct Hres as [-> | [r ->]]; [assumption|].
    rewrite <- P. reflexivity.
Qed.

Lemma updateBooking_success_keeps_parties_witness :
  let req := Sample.request Sample.bella "b-1"
               (Sample.statusBody "completed" "paid") in
  exists b0 b',
    bookings (Sample.world 1500) !! "b-1" = Some b0
    /\ bookings (fst (updateBooking req (Sample.world 1500)))
       = <["b-1" := b']> (bookings (Sample.world 1500))
    /\ payload (snd (updateBooking req (Sample.world 1500)))
       = BookingData "b-1" b' (findChatId "b-1" (Sample.world 1500))
    /\ parties b' = parties b0
    /\ Booking.valid b' = true.
Proof.
  apply (updateBooking_success_keeps_parties
           (Sample.request Sample.bella "b-1"
              (Sample.statusBody "completed" "paid")) (Sample.world 1500)).
  vm_compute. reflexivity.
Defined.

(** X6.  The canceller is written with the status and only with it.  An
    update answered with 200 that names no status leaves the status and the
    canceller as they were; one that names a status stores it, with the
    canceller when the status is [cancelled] and without any otherwise.  So
    a booking that names its canceller exactly when it is cancelled still
    does after the update. *)
Theorem updateBooking_records_canceller
    (req : Request) (w : World) (u : AuthUser) (b0 : Booking.t) :
  user req = Some u ->
  bookings w !! id req = Some b0 ->
  code (snd (updateBooking req w)) = 200%nat ->
  exists b',
    bookings (fst (updateBooking req w)) !! id req = Some b'
    /\ match status (body req) with
       | None =>
           Booking.status b' = Booking.status b0
           /\ Booking.cancelledBy b' = Booking.cancelledBy b0
       | Some s =>
           parseStatus s = Some (Booking.status b')
           /\ Booking.cancelledBy b' =
                match Booking.status b' with
                | cancelled => Some (inferred u (body req))
                | _ => None
                end
       end
    /\ (cancellerRecorded b0 -> cancellerRecorded b').
Proof.
  intros Hu0 Hb0 Hcode.
  destruct (updateBooking_ok req w Hcode)
    as (u' & b0' & b & b' & w2 & Hu & Hb & Ha & He & Hres & V & B2 & C2 & Hrun).
  assert (u' = u) by congruence. assert (b0' = b0) by congruence.
  subst u' b0'.
  rewrite Hrun. simpl. exists b'.
  split; [apply lookup_insert_eq|].
  pose proof He as He0.
  apply applyBody_edited in He. destruct He as [_ _ _ S _].
  assert (Hsame : (Booking.status b', Booking.cancelledBy b')
                  = (Booking.status b, Booking.cancelledBy b))
    by (destruct Hres as [-> | [r ->]]; reflexivity).
  rewrite <- Hsame in S. clear Hsame.
  destruct (status (body req)) as [s|] eqn:Hs.
  - destruct (parseStatus s) as [st|] eqn:Hp.
    + assert (Hst : Booking.status b' = st
                    /\ Booking.cancelledBy b' =
                         match st with
                         | cancelled => Some (inferred u (body req))
                         | _ => None
                         end)
        by (destruct st; injection S as -> ->; auto).
      destruct Hst as [Hst Hc]. split; [rewrite Hst; auto|].
      intros _. unfold cancellerRecorded. rewrite Hc, Hst.
      destruct st; split; intros H;
        first [discriminate | reflexivity | eexists; reflexivity
              | destruct H as [? H]; discriminate].
    + exfalso. exact (applyBody_status_parsed _ _ _ _ _ He0 Hs Hp).
  - injection S as S1 S2. split; [auto|].
    unfold cancellerRecorded. rewrite S1, S2. auto.
Qed.

Lemma updateBooking_records_canceller_witness :
  let req := Sample.request Sample.alice "b-1"
               (Sample.statusBody "cancelled" "refunded") in
  exists b',
    bookings (fst (updateBooking req (Sample.world 1001))) !! "b-1" = Some b'
    /\ (parseStatus "cancelled" = Some (Booking.status b')
        /\ Booking.cancelledBy b' =
             match Booking.status b' with
             | cancelled => Some (inferred Sample.alice (body req))
             | _ => None
             end)
    /\ (cancellerRecorded (Sample.booking 1001) -> cancellerRecorded b').
Proof.
  apply (updateBooking_records_canceller
           (Sample.request Sample.alice "b-1"
              (Sample.statusBody "cancelled" "refunded"))
           (Sample.world 1001) Sample.alice (Sample.booking 1001));
    vm_compute; reflexivity.
Defined.

End UpdateBookingReplies.

(** ** Counts and payments *)

Section UpdateBookingCounts.

Import Bookings.

Lemma filter_length_Permutation {A} (f : A -> bool) (l l' : list A) :
  l ≡ₚ l' -> length (List.filter f l) = length (List.filter f l').
Proof.
  induction 1 as [|x l l' _ IH|x y l|l1 l2 l3 _ IH1 _ IH2]; simpl.
  - reflexivity.
  - destruct (f x); simpl; congruence.
  - destruct (f x), (f y); reflexivity.
  - congruence.
Qed.

(** Writing a booking over a stored one changes the count of the completed
    bookings of a service by what the two documents contribute. *)
Lemma completedBookingsCount_insert sid bid b0 b' w :
  bookings w !! bid = Some b0 ->
  let counts (b : Booking.t) :=
    if String.eqb (Booking.serviceId b) sid
       && bool_decide (Booking.status b = completed)
    then 1%nat else 0%nat in
  (completedBookingsCount sid (withBookings (<[bid := b']> (bookings w)) w)
   + counts b0 = completedBookingsCount sid w + counts b')%nat.
Proof.
  intros Hb. cbv zeta. unfold completedBookingsCount. simpl.
  set (f := fun kb : string * Booking.t =>
              String.eqb (Booking.serviceId kb.2) sid
              && bool_decide (Booking.status kb.2 = completed)).
  rewrite <- (insert_delete_eq (bookings w)).
  rewrite (filter_length_Permutation f _ _
             (map_to_list_insert (delete bid (bookings w)) bid b'
                (lookup_delete_eq _ _))).
  rewrite <- (filter_length_Permutation f _ _
                (map_to_list_delete (bookings w) bid b0 Hb)).
  simpl. subst f. cbn beta. simpl.
  destruct (String.eqb (Booking.serviceId b') sid
            && bool_decide (Booking.status b' = completed));
    destruct (String.eqb (Booking.serviceId b0) sid
              && bool_decide (Booking.status b0 = completed));
    simpl; lia.
Qed.

Lemma syncBookingCount_count b w s :
  services w !! Booking.serviceId b = Some s ->
  exists w',
    syncBookingCount b w = (w', inr tt)
    /\ bookings w' = bookings w
    /\ (Service.bookingCount <$> services w' !! Booking.serviceId b)
       = Some (completedBookingsCount (Booking.serviceId b) w).
Proof.
  intros Hs. unfold syncBookingCount, modify. rewrite Hs.
  destruct (Nat.eqb _ _) eqn:E.
  - exists w. repeat split. rewrite Hs. simpl.
    apply Nat.eqb_eq in E. congruence.
  - eexists. repeat split. simpl. rewrite lookup_insert_eq. reflexivity.
Qed.

Lemma processEarning_count b w w' s :
  Booking.status b = completed ->
  Booking.paymentStatus b = paid ->
  services w !! Booking.serviceId b = Some s ->
  processEarning b w = (w', inr tt) ->
  bookings w' = bookings w
  /\ (Service.bookingCount <$> services w' !! Booking.serviceId b)
     = Some (completedBookingsCount (Booking.serviceId b) w).
Proof.
  intros Hs Hp Hsvc. unfold processEarning. rewrite Hs, Hp.
  unfold bind, gets, ret.
  destruct (existingEarning b w).
  - destruct (syncBookingCount_count b w s Hsvc) as (w2 & E2 & B2 & C2).
    rewrite E2. intros [= <-]. auto.
  - destruct (Transaction_create (earningTx b) w) as [w1 [e|[]]] eqn:E1;
      [discriminate|].
    apply Transaction_create_inv in E1 as (B1 & _ & _ & _ & S1 & _).
    rewrite <- S1 in Hsvc.
    destruct (syncBookingCount_count b w1 s Hsvc) as (w2 & E2 & B2 & C2).
    rewrite E2. intros [= <-]. split; [congruence|].
    rewrite C2. unfold completedBookingsCount. rewrite B1. reflexivity.
Qed.

(** X7.  The booking count of a service is synchronised before the booking
    is saved.  When an update answered with 200 completes a paid booking that
    was not completed before, the count written to the service is the number
    of completed bookings of the service as stored before the update: one
    less than the number stored after it. *)
Theorem completion_counts_before_saving
    (req : Request) (w : World) (u : AuthUser) (b0 b : Booking.t)
    (s : Service.t) :
  user req = Some u ->
  bookings w !! id req = Some b0 ->
  canAccessBooking b0 (Some u) = true ->
  applyBody u (body req) b0 = inr (inr b) ->
  Booking.status b0 <> completed ->
  Booking.status b = completed ->
  Booking.paymentStatus b = paid ->
  services w !! Booking.serviceId b0 = Some s ->
  code (snd (updateBooking req w)) = 200%nat ->
  let w' := fst (updateBooking req w) in
  let sid := Booking.serviceId b0 in
  (Service.bookingCount <$> services w' !! sid)
  = Some (completedBookingsCount sid w)
  /\ completedBookingsCount sid w' = S (completedBookingsCount sid w).
Proof.
  intros Hu Hb Ha He Hs0 Hs Hp Hsvc Hcode. cbv zeta.
  pose proof (applyBody_edited _ _ _ _ He) as [P _ _ _ _].
  assert (Hsid : Booking.serviceId b = Booking.serviceId b0)
    by (unfold parties in P; congruence).
  rewrite (updateBooking_run _ _ _ _ _ Hu Hb Ha He) in Hcode |- *.
  rewrite processRefund_skip in Hcode |- * by (left; congruence).
  destruct (processEarning b w) as [w2 [e|[]]] eqn:E2.
  { cbn [snd] in Hcode. exfalso.
    destruct (updateBookingCatch_code e) as [H|H]; rewrite H in Hcode;
      clear - Hcode; lia. }
  rewrite <- Hsid in Hsvc.
  destruct (processEarning_count _ _ _ _ Hs Hp Hsvc E2) as [B2 C2].
  destruct (Booking.valid b) eqn:V;
    [|simpl in Hcode; exfalso; clear - Hcode; lia].
  simpl. rewrite <- Hsid. split.
  - exact C2.
  - assert (Hb2 : bookings w2 !! id req = Some b0) by congruence.
    pose proof (completedBookingsCount_insert (Booking.serviceId b)
                  (id req) b0 b w2 Hb2) as Hc.
    cbv beta zeta in Hc.
    rewrite <- Hsid in Hc. rewrite !String.eqb_refl in Hc.
    rewrite (bool_decide_eq_false_2 _ Hs0) in Hc.
    rewrite (bool_decide_eq_true_2 _ Hs) in Hc.
    rewrite andb_false_r in Hc. simpl in Hc.
    assert (Hcount : completedBookingsCount (Booking.serviceId b) w2
                     = completedBookingsCount (Booking.serviceId b) w)
      by (unfold completedBookingsCount; congruence).
    rewrite Hcount in Hc. lia.
Qed.

Lemma completion_counts_before_saving_witness :
  let req := Sample.request Sample.bella "b-1"
               (Sample.statusBody "completed" "paid") in
  let w' := fst (updateBooking req (Sample.world 1500)) in
  (Service.bookingCount <$> services w' !! "svc-1")
  = Some (completedBookingsCount "svc-1" (Sample.world 1500))
  /\ completedBookingsCount "svc-1" w'
     = S (completedBookingsCount "svc-1" (Sample.world 1500)).
Proof.
  apply (completion_counts_before_saving
           (Sample.request Sample.bella "b-1"
              (Sample.statusBody "completed" "paid"))
           (Sample.world 1500) Sample.bella (Sample.booking 1500)
           (Booking.setPaymentStatus paid
              (Booking.setStatus completed None (Sample.booking 1500)))
           Sample.service);
    vm_compute; first [reflexivity | discriminate].
Defined.

(** X8.  A payment is marked refunded at most once.  Marking the payments
    of a booking keeps their number and order, leaves the payments of every
    other booking as they are, and changes nothing when run again, whatever
    the second refund says. *)
Theorem refundPayment_marks_once
    (bid : string) (b1 b2 : Booking.t) (who1 who2 : CancelledBy)
    (r1 r2 : Q) (t1 t2 : nat) (ps : list Payment.t) :
  let marked := refundPayment bid (markRefunded b1 who1 r1 t1) ps in
  List.map Payment.bookingId marked = List.map Payment.bookingId ps
  /\ List.filter (fun p => negb (String.eqb (Payment.bookingId p) bid)) marked
     = List.filter (fun p => negb (String.eqb (Payment.bookingId p) bid)) ps
  /\ refundPayment bid (markRefunded b2 who2 r2 t2) marked = marked.
Proof.
  cbv zeta. induction ps as [|p ps (IH1 & IH2 & IH3)]; simpl; [auto|].
  destruct (String.eqb (Payment.bookingId p) bid) eqn:E.
  - destruct (Payment.refundedAt p) eqn:R; simpl; rewrite E; simpl.
    + rewrite R. auto.
    + auto.
  - simpl. rewrite E. simpl. repeat split; congruence.
Qed.

End UpdateBookingCounts.

(** ** The wallet and the derived balance *)

Section WalletMore.

Import Wallet.

(** The record that [performTransaction] writes. *)
Lemma performTransaction_run req action w u amt tu :
  user req = Some u ->
  positiveAmount (amount (body req)) = Some amt ->
  findUserById (payerId u (body req)) w = Some tu ->
  let target := payerId u (body req) in
  let next := (balanceOf tu + match action with
                              | debit => - amt
                              | credit => amt
                              end)%Q in
  Qltb next 0 = false ->
  exists tx,
    Transaction.customerId tx = target
    /\ Transaction.amount tx = amt
    /\ Transaction.status tx = orElse (status (body req)) "completed"
    /\ Transaction.type tx = None
    /\ Transaction.action tx = Some (actionName action)
    /\ Transaction.balanceAfter tx = Some next
    /\ performTransaction req action w =
         match Transaction_create tx
                 (withUsers (<[target := User.mk (User.type tu) (Some next)]>
                               (users w)) w) with
         | (w', inr _) => (w', mkResponse 201 (TransactionData tx next))
         | (w', inl e) => (w', walletCatch "Unable to create transaction" e)
         end.
Proof.
  intros Hu Ha Hp target next Hn.
  exists (Transaction.mk target amt
            (toUpperCase (orElse (currency (body req)) "THB"))
            (orElse (method (body req)) "topup") None
            (orElse (status (body req)) "completed")
            (default "" (note (body req)))
            (Some (actionName action)) None (Some next)).
  do 6 (split; [reflexivity|]).
  unfold performTransaction, tryCatch.
  rewrite Hu, Ha. unfold bind at 1. unfold gets at 1.
  fold target in Hp |- *. rewrite Hp. fold next. rewrite Hn.
  unfold bind at 1. unfold saveBalance, modify. unfold bind at 1.
  destruct (Transaction_create _ _) as [w1 [e|[]]]; reflexivity.
Qed.

Lemma walletFrame_refl w : walletFrame w w.
Proof. repeat split; auto. Qed.

Lemma walletFrame_create tx w0 w w' res :
  Transaction_create tx w0 = (w', res) ->
  Transaction.type tx = None ->
  transactions w0 = transactions w -> bookings w0 = bookings w ->
  services w0 = services w -> withdrawals w0 = withdrawals w ->
  payments w0 = payments w ->
  walletFrame w w'.
Proof.
  intros E Ht T B S W P.
  apply Transaction_create_inv in E as (B1 & _ & W1 & P1 & S1 & _ & T1).
  repeat split; try congruence.
  destruct res as [e|[]]; destruct T1 as [T1 _]; [left|right; exists tx];
    rewrite T1, T; auto.
Qed.

Lemma performTransaction_frame req action w :
  walletFrame w (fst (performTransaction req action w)).
Proof.
  destruct (user req) as [u|] eqn:Hu.
  2:{ unfold performTransaction, tryCatch. rewrite Hu.
      apply walletFrame_refl. }
  destruct (positiveAmount (amount (body req))) as [amt|] eqn:Ha.
  2:{ unfold performTransaction, tryCatch. rewrite Hu, Ha.
      apply walletFrame_refl. }
  destruct (findUserById (payerId u (body req)) w) as [tu|] eqn:Hp.
  2:{ unfold performTransaction, tryCatch. rewrite Hu, Ha.
      unfold bind, gets. rewrite Hp. apply walletFrame_refl. }
  destruct (Qltb (balanceOf tu + match action with
                                 | debit => - amt
                                 | credit => amt
                                 end) 0) eqn:Hn.
  { unfold performTransaction, tryCatch. rewrite Hu, Ha.
    unfold bind, gets. rewrite Hp, Hn. apply walletFrame_refl. }
  destruct (performTransaction_run req action w u amt tu Hu Ha Hp Hn)
    as (tx & _ & _ & _ & Ht & _ & _ & ->).
  destruct (Transaction_create tx _) as [w1 res] eqn:E.
  assert (F : walletFrame w w1)
    by (apply (walletFrame_create _ _ w _ _ E); [exact Ht|..]; reflexivity).
  destruct res as [e|[]]; exact F.
Qed.

Lemma paymentTransaction_frame providerLast req w :
  walletFrame w (fst (paymentTransaction providerLast req w)).
Proof.
  unfold paymentTransaction, tryCatch.
  destruct (user req) as [u|]; [|apply walletFrame_refl].
  destruct (positiveAmount (amount (body req))) as [amt|];
    [|apply walletFrame_refl].
  destruct (truthy (providerId (body req))) as [pid|];
    [|apply walletFrame_refl].
  unfold bind at 1. unfold gets at 1.
  unfold bind at 1. unfold gets at 1.
  destruct (findUserById (payerId u (body req)) w) as [cu|];
    [|apply walletFrame_refl].
  destruct (findUserById pid w) as [pu|]; [|apply walletFrame_refl].
  destruct (Qltb (balanceOf cu - amt) 0); [apply walletFrame_refl|].
  unfold bind at 1.
  destruct providerLast; unfold bind at 1; unfold saveBalance, modify;
    unfold bind at 1;
    (destruct (Transaction_create _ _) as [w1 res] eqn:E;
     assert (F : walletFrame w w1)
       by (apply (walletFrame_create _ _ w _ _ E); reflexivity);
     destruct res as [e|[]]; exact F).
Qed.

Lemma derivedBalance_frame k w w' :
  walletFrame w w' ->
  Withdrawals.derivedBalance k w' = Withdrawals.derivedBalance k w.
Proof.
  intros ([T | (tx & T & Ht)] & _); unfold Withdrawals.derivedBalance;
    rewrite T; [reflexivity|].
  rewrite List.filter_app, fold_left_app. simpl.
  destruct (String.eqb (Transaction.customerId tx) k); [|reflexivity].
  simpl. unfold Withdrawals.balanceStep. rewrite Ht. reflexivity.
Qed.

(** X9.  The wallet and the ledger keep two balances apart.  No credit,
    debit or payment of the wallet controller, whatever its outcome, changes
    the balance that [createWithdrawal] derives from the ledger for any
    account: the record a wallet operation appends carries no [type], and it
    is the only write it makes outside the accounts. *)
Theorem wallet_never_moves_derived_balance
    (providerLast : bool) (req : Request) (action : Action) (w : World)
    (account : string) :
  Withdrawals.derivedBalance account (fst (performTransaction req action w))
  = Withdrawals.derivedBalance account w
  /\ Withdrawals.derivedBalance account
       (fst (paymentTransaction providerLast req w))
     = Withdrawals.derivedBalance account w
  /\ bookings (fst (performTransaction req action w)) = bookings w
  /\ bookings (fst (paymentTransaction providerLast req w)) = bookings w
  /\ withdrawals (fst (performTransaction req action w)) = withdrawals w
  /\ withdrawals (fst (paymentTransaction providerLast req w))
     = withdrawals w.
Proof.
  pose proof (performTransaction_frame req action w) as F1.
  pose proof (paymentTransaction_frame providerLast req w) as F2.
  split; [exact (derivedBalance_frame _ _ _ F1)|].
  split; [exact (derivedBalance_frame _ _ _ F2)|].
  destruct F1 as (_ & B1 & _ & W1 & _), F2 as (_ & B2 & _ & W2 & _).
  auto.
Qed.








End WalletMore.

(** ** The chat of a booking, and its creation *)

Section Chats.

Lemma find_chat_None bid cs :
  List.find (fun c => String.eqb (Chat.bookingId c) bid) cs = None ->
  ~ In bid (List.map Chat.bookingId cs).
Proof.
  induction cs as [|c cs IH]; simpl; [auto|].
  destruct (String.eqb (Chat.bookingId c) bid) eqn:E; [discriminate|].
  apply String.eqb_neq in E. intros F [H|H]; [congruence|].
  exact (IH F H).
Qed.

Lemma oneChatPerBooking_snoc w uuid bid :
  findChatId bid w = None ->
  oneChatPerBooking w ->
  oneChatPerBooking (withChats (chats w ++ [Chat.mk uuid bid]) w).
Proof.
  unfold findChatId, oneChatPerBooking. simpl. intros F Hn.
  destruct (List.find _ (chats w)) eqn:F0; [discriminate|].
  rewrite map_app. simpl. apply NoDup_app. split; [exact Hn|].
  split; [|apply NoDup_singleton].
  intros x Hx Hin. apply list_elem_of_singleton in Hin. subst x.
  apply (find_chat_None _ _ F0). apply list_elem_of_In. exact Hx.
Qed.

Lemma ensureChatForBooking_inv uuid bid b w w' res :
  ensureChatForBooking uuid bid b w = (w', res) ->
  bookings w' = bookings w
  /\ transactions w' = transactions w
  /\ services w' = services w
  /\ users w' = users w
  /\ (oneChatPerBooking w -> oneChatPerBooking w')
  /\ match res with
     | inl _ => chats w' = chats w /\ findChatId bid w = None
     | inr None =>
         chats w' = chats w
         /\ (bid = "" \/ Booking.customerId b = ""
             \/ Booking.providerId b = "")
     | inr (Some c) =>
         Chat.bookingId c = bid
         /\ findChatId bid w' = Some (Chat.id c)
     end.
Proof.
  unfold ensureChatForBooking.
  destruct (String.eqb bid "") eqn:E1;
    [apply String.eqb_eq in E1; intros [= <- <-]; auto 10|].
  destruct (String.eqb (Booking.customerId b) "") eqn:E2;
    [apply String.eqb_eq in E2; intros [= <- <-]; auto 10|].
  destruct (String.eqb (Booking.providerId b) "") eqn:E3;
    [apply String.eqb_eq in E3; intros [= <- <-]; auto 10|].
  simpl. unfold bind, gets, ret.
  destruct (List.find _ (chats w)) as [c|] eqn:F.
  - intros [= <- <-]. repeat split; auto.
    + apply find_some in F as [_ F]. apply String.eqb_eq in F. exact F.
    + unfold findChatId. rewrite F. reflexivity.
  - assert (F0 : findChatId bid w = None)
      by (unfold findChatId; rewrite F; reflexivity).
    unfold Chat_create.
    destruct (existsb _ (chats w)); intros [= <- <-];
      repeat split; auto.
    + apply oneChatPerBooking_snoc. exact F0.
    + unfold findChatId. simpl. rewrite find_app_None by exact F.
      simpl. rewrite String.eqb_refl. reflexivity.
Qed.

(** X13.  A booking has at most one chat.  [ensureChatForBooking] answers
    with the chat of the booking when there is one and creates it otherwise;
    asked again, under any new identifier, it answers with the same chat and
    creates nothing.  It keeps the chats one per booking. *)
Theorem ensureChatForBooking_idempotent
    (uuid uuid' bid : string) (b : Booking.t) (w w1 : World) (c : Chat.t) :
  ensureChatForBooking uuid bid b w = (w1, inr (Some c)) ->
  ensureChatForBooking uuid' bid b w1 = (w1, inr (Some c))
  /\ findChatId bid w1 = Some (Chat.id c)
  /\ (oneChatPerBooking w -> oneChatPerBooking w1).
Proof.
  intros H. pose proof H as H0.
  unfold ensureChatForBooking in H |- *.
  destruct (String.eqb bid "" || String.eqb (Booking.customerId b) ""
            || String.eqb (Booking.providerId b) ""); [discriminate|].
  unfold bind, gets, ret in H |- *.
  destruct (List.find _ (chats w)) as [c0|] eqn:F.
  - injection H as <- <-. rewrite F. split; [reflexivity|].
    split; [|auto]. unfold findChatId. rewrite F. reflexivity.
  - unfold Chat_create in H.
    destruct (existsb _ (chats w)); [discriminate|].
    injection H as <- <-. simpl.
    rewrite find_app_None by exact F. simpl. rewrite String.eqb_refl.
    split; [reflexivity|]. split.
    + unfold findChatId. simpl. rewrite find_app_None by exact F.
      simpl. rewrite String.eqb_refl. reflexivity.
    + apply oneChatPerBooking_snoc. unfold findChatId. rewrite F.
      reflexivity.
Qed.

Lemma ensureChatForBooking_idempotent_witness :
  let b := Sample.booking 1500 in
  let w1 := withChats [Chat.mk "c-1" "b-1"] (Sample.world 1500) in
  ensureChatForBooking "c-2" "b-1" b w1
  = (w1, inr (Some (Chat.mk "c-1" "b-1")))
  /\ findChatId "b-1" w1 = Some "c-1"
  /\ (oneChatPerBooking (Sample.world 1500) -> oneChatPerBooking w1).
Proof.
  apply (ensureChatForBooking_idempotent "c-1" "c-2" "b-1"
           (Sample.booking 1500) (Sample.world 1500)).
  reflexivity.
Defined.

End Chats.

Section CreateBooking.

Import BookingCrud.

Lemma Booking_create_inv uuid customer sid svc hours amount deposit bd w w1 b :
  Booking_create uuid customer sid svc hours amount deposit bd w
  = (w1, inr b) ->
  w1 = withBookings (<[uuid := b]> (bookings w)) w
  /\ bookings w !! uuid = None
  /\ Booking.customerId b = customer
  /\ customer <> ""
  /\ Service.providerId svc <> ""
  /\ Booking.providerId b = Service.providerId svc
  /\ Booking.serviceId b = sid
  /\ Booking.serviceName b = trim (Service.name svc)
  /\ Booking.totalHours b = hours
  /\ Booking.totalAmount b = amount
  /\ Booking.depositAmount b = deposit
  /\ Booking.status b
     = default pending (match truthy (status bd) with
                        | Some s => parseStatus s
                        | None => None
                        end)
  /\ Booking.paymentStatus b
     = default unpaid (match truthy (paymentStatus bd) with
                       | Some s => parsePaymentStatus s
                       | None => None
                       end)
  /\ Booking.cancelledBy b = None
  /\ Booking.refundAmount b = None
  /\ isoDate (Booking.date b) = true
  /\ Booking.valid b = true.
Proof.
  unfold Booking_create, requiredTrimmed.
  destruct (date bd) as [day|]; [|discriminate].
  destruct (startTime bd) as [st|]; [|discriminate].
  destruct (String.eqb (trim st) ""); [discriminate|].
  destruct (endTime bd) as [et|]; [|discriminate].
  destruct (String.eqb (trim et) ""); [discriminate|].
  destruct (String.eqb (trim (Service.name svc)) ""); [discriminate|].
  cbv zeta.
  destruct (String.eqb customer "") eqn:Ec; [discriminate|].
  destruct (String.eqb (Service.providerId svc) "") eqn:Ep; [discriminate|].
  destruct (String.eqb sid ""); [discriminate|].
  destruct (isoDate day) eqn:Ed; [|discriminate].
  destruct (Booking.valid _) eqn:Ev; [|discriminate].
  simpl.
  destruct (bool_decide (is_Some (bookings w !! uuid))) eqn:Eu;
    [discriminate|].
  intros [= <- <-].
  apply bool_decide_eq_false in Eu.
  apply String.eqb_neq in Ec, Ep.
  repeat split; auto.
  destruct (bookings w !! uuid) eqn:L; [|reflexivity].
  exfalso. apply Eu. eauto.
Qed.

(** A creation answered with 201, step by step. *)
Lemma createBooking_created uuid chatUuid req w w' r :
  createBooking uuid chatUuid req w = (w', r) ->
  code r = 201%nat ->
  exists u sid svc hours amount deposit b w1 chat,
    user req = Some u
    /\ utype u <> provider
    /\ serviceId (body req) = Some sid
    /\ services w !! sid = Some svc
    /\ Service.providerId svc
       <> match utype u, truthy (customerId (body req)) with
          | admin, Some c => c
          | _, _ => uid u
          end
    /\ Booking_create uuid
         match utype u, truthy (customerId (body req)) with
         | admin, Some c => c
         | _, _ => uid u
         end sid svc hours amount deposit (body req) w = (w1, inr b)
    /\ catchM (ensureChatForBooking chatUuid uuid b) (fun _ => ret None) w1
       = (w', inr chat)
    /\ r = mkResponse 201 (BookingData uuid b (Chat.id <$> chat)).
Proof.
  unfold createBooking, tryCatch.
  destruct (user req) as [u|]; [|intros [= <- <-]; simpl; clear; lia].
  destruct (bool_decide (utype u = provider)) eqn:Hrole;
    [intros [= <- <-]; simpl; clear; lia|].
  apply bool_decide_eq_false in Hrole.
  unfold bind at 1. unfold gets at 1.
  destruct (serviceId (body req)) as [sid|];
    [|intros [= <- <-]; simpl; clear; lia].
  destruct (services w !! sid) as [svc|] eqn:Hsvc;
    [|intros [= <- <-]; simpl; clear; lia].
  destruct (String.eqb (Service.providerId svc) _) eqn:Hown;
    [intros [= <- <-]; simpl; clear; lia|].
  apply String.eqb_neq in Hown.
  destruct (toNumber (totalHours (body req))) as [hours|];
    [|intros [= <- <-]; simpl; clear; lia].
  destruct (toNumber (totalAmount (body req))) as [amount|];
    [|intros [= <- <-]; simpl; clear; lia].
  destruct (toNumber (depositAmount (body req))) as [deposit|];
    [|intros [= <- <-]; simpl; clear; lia].
  unfold bind at 1. simpl default.
  destruct (Booking_create _ _ _ _ _ _ _ _ w) as [w1 [e|b]] eqn:E1.
  { intros [= <- <-]. destruct e; simpl; clear; lia. }
  unfold bind at 1.
  destruct (catchM _ _ w1) as [w2 [e|chat]] eqn:E2.
  { exfalso. unfold catchM in E2.
    destruct (ensureChatForBooking chatUuid uuid b w1) as [w3 [e3|c3]];
      discriminate. }
  intros [= <- <-] _.
  exists u, sid, svc, hours, amount, deposit, b, w1, chat.
  repeat split; auto.
Qed.

Lemma catch_ensureChat_inv chatUuid uuid b w1 w2 chat :
  uuid <> "" ->
  Booking.customerId b <> "" ->
  Booking.providerId b <> "" ->
  catchM (ensureChatForBooking chatUuid uuid b) (fun _ => ret None) w1
  = (w2, inr chat) ->
  bookings w2 = bookings w1
  /\ transactions w2 = transactions w1
  /\ services w2 = services w1
  /\ users w2 = users w1
  /\ findChatId uuid w2 = (Chat.id <$> chat)
  /\ (oneChatPerBooking w1 -> oneChatPerBooking w2).
Proof.
  intros Hu Hc Hp. unfold catchM.
  destruct (ensureChatForBooking chatUuid uuid b w1) as [w3 [e|c]] eqn:E;
    apply ensureChatForBooking_inv in E as (B & T & S & U & N & C).
  - unfold ret. intros [= <- <-]. destruct C as [C F].
    repeat split; auto. unfold findChatId in *. rewrite C. exact F.
  - intros [= <- <-]. destruct c as [c|].
    + destruct C as [_ F]. repeat split; auto.
    + exfalso. destruct C as [_ [C|[C|C]]]; congruence.
Qed.

End CreateBooking.

(** ** Creating, deleting and listing bookings *)

Section CreateBookingProps.

Import BookingCrud.

(** X14.  What a creation answered with 201 has done.  The caller is no
    provider; the booking is stored under the new identifier, which was
    free, and is the one answered; it is a booking of the service named in
    the request, with the provider and the name of that service, by a
    customer who is not that provider and who is the caller unless an admin
    names another; it passes the validators, has no canceller and no refund,
    and takes [pending] for a status that the request leaves out or
    misspells.  The ledger is as it was. *)
Theorem createBooking_creates
    (uuid chatUuid : string) (req : Request) (w : World) :
  uuid <> "" ->
  code (snd (createBooking uuid chatUuid req w)) = 201%nat ->
  let w' := fst (createBooking uuid chatUuid req w) in
  exists u sid svc b,
    user req = Some u
    /\ utype u <> provider
    /\ serviceId (body req) = Some sid
    /\ services w !! sid = Some svc
    /\ bookings w !! uuid = None
    /\ bookings w' = <[uuid := b]> (bookings w)
    /\ payload (snd (createBooking uuid chatUuid req w))
       = BookingData uuid b (findChatId uuid w')
    /\ Booking.serviceId b = sid
    /\ Booking.providerId b = Service.providerId svc
    /\ Booking.serviceName b = trim (Service.name svc)
    /\ Booking.customerId b <> Booking.providerId b
    /\ (utype u = customer -> Booking.customerId b = uid u)
    /\ Booking.valid b = true
    /\ Booking.cancelledBy b = None
    /\ Booking.refundAmount b = None
    /\ Booking.status b
       = default pending (match truthy (status (body req)) with
                          | Some s => parseStatus s
                          | None => None
                          end)
    /\ transactions w' = transactions w.
Proof.
  intros Hid Hcode. cbv zeta.
  destruct (createBooking uuid chatUuid req w) as [w' r] eqn:E.
  simpl in Hcode |- *.
  destruct (createBooking_created _ _ _ _ _ _ E Hcode)
    as (u & sid & svc & hours & amount & deposit & b & w1 & chat
        & Hu & Hrole & Hsid & Hsvc & Hown & E1 & E2 & ->).
  apply Booking_create_inv in E1
    as (-> & Hfree & Hc & Hne & Hpne & Hp & Hs & Hn & _ & _ & _ & Hst & _
        & Hcb & Hr & _ & Hv).
  apply catch_ensureChat_inv in E2 as (B & T & S & U & F & _);
    [|assumption|congruence|congruence].
  exists u, sid, svc, b. simpl in B, T.
  repeat split; try assumption.
  - simpl. rewrite F. reflexivity.
  - congruence.
  - intros Hcust. rewrite Hc, Hcust. reflexivity.
Qed.

Lemma createBooking_creates_witness :
  let run := createBooking "b-9" "c-9" (Scenario.book Sample.alice 1500 300)
               Scenario.catalogue in
  exists u sid svc b,
    BookingCrud.user (Scenario.book Sample.alice 1500 300) = Some u
    /\ utype u <> provider
    /\ serviceId (body (Scenario.book Sample.alice 1500 300)) = Some sid
    /\ services Scenario.catalogue !! sid = Some svc
    /\ bookings Scenario.catalogue !! "b-9" = None
    /\ bookings (fst run) = <["b-9" := b]> (bookings Scenario.catalogue)
    /\ payload (snd run) = BookingData "b-9" b (findChatId "b-9" (fst run))
    /\ Booking.serviceId b = sid
    /\ Booking.providerId b = Service.providerId svc
    /\ Booking.serviceName b = trim (Service.name svc)
    /\ Booking.customerId b <> Booking.providerId b
    /\ (utype u = customer -> Booking.customerId b = uid u)
    /\ Booking.valid b = true
    /\ Booking.cancelledBy b = None
    /\ Booking.refundAmount b = None
    /\ Booking.status b = default pending None
    /\ transactions (fst run) = transactions Scenario.catalogue.
Proof.
  apply (createBooking_creates "b-9" "c-9"
           (Scenario.book Sample.alice 1500 300) Scenario.catalogue).
  - discriminate.
  - vm_compute. reflexivity.
Defined.

(** X15.  What [createBooking] answers can be read back.  After a creation
    answered with 201, [getBooking] under the new identifier answers any
    authenticated reader with 200 and the same data, chat identifier
    included, and changes nothing. *)
Theorem createBooking_then_getBooking
    (uuid chatUuid : string) (req : Request) (w : World)
    (reader : AuthUser) (anyBody : Bookings.Body) :
  uuid <> "" ->
  code (snd (createBooking uuid chatUuid req w)) = 201%nat ->
  let w' := fst (createBooking uuid chatUuid req w) in
  Bookings.getBooking (Bookings.mkRequest (Some reader) uuid anyBody) w'
  = (w', mkResponse 200 (payload (snd (createBooking uuid chatUuid req w)))).
Proof.
  intros Hid Hcode. cbv zeta.
  destruct (createBooking uuid chatUuid req w) as [w' r] eqn:E.
  simpl in Hcode |- *.
  destruct (createBooking_created _ _ _ _ _ _ E Hcode)
    as (u & sid & svc & hours & amount & deposit & b & w1 & chat
        & Hu & Hrole & Hsid & Hsvc & Hown & E1 & E2 & ->).
  apply Booking_create_inv in E1
    as (-> & Hfree & Hc & Hne & Hpne & Hp & _).
  apply catch_ensureChat_inv in E2 as (B & _ & _ & _ & F & _);
    [|assumption|congruence|congruence].
  simpl in B.
  unfold Bookings.getBooking, tryCatch. simpl.
  unfold bind, gets, ret. simpl. rewrite B, lookup_insert_eq, F.
  reflexivity.
Qed.

Lemma createBooking_then_getBooking_witness :
  let run := createBooking "b-9" "c-9" (Scenario.book Sample.alice 1500 300)
               Scenario.catalogue in
  Bookings.getBooking
    (Bookings.mkRequest (Some Sample.carol) "b-9" Sample.noChange) (fst run)
  = (fst run, mkResponse 200 (payload (snd run))).
Proof.
  apply (createBooking_then_getBooking "b-9" "c-9"
           (Scenario.book Sample.alice 1500 300) Scenario.catalogue
           Sample.carol Sample.noChange).
  - discriminate.
  - vm_compute. reflexivity.
Defined.

(** X16.  [createBooking] refuses without writing.  A provider is answered
    403, and a customer who asks for a service of their own 400; whatever
    the request, an answer other than 201 leaves every booking and the
    ledger as they were, and a chat is only ever added for the booking just
    created. *)
Theorem createBooking_refusals
    (uuid chatUuid : string) (req : Request) (w : World) :
  let w' := fst (createBooking uuid chatUuid req w) in
  let r := snd (createBooking uuid chatUuid req w) in
  (forall u, user req = Some u -> utype u = provider ->
             r = failure 403 "Only customers or admins can create bookings")
  /\ (forall u sid svc,
        user req = Some u -> utype u = customer ->
        serviceId (body req) = Some sid ->
        services w !! sid = Some svc ->
        Service.providerId svc = uid u ->
        r = failure 400 "Providers cannot book their own services")
  /\ (code r <> 201%nat -> w' = w)
  /\ transactions w' = transactions w
  /\ (chats w' = chats w \/ chats w' = chats w ++ [Chat.mk chatUuid uuid]).
Proof.
  cbv zeta. split; [|split].
  - intros u Hu Hp. unfold createBooking, tryCatch. rewrite Hu, Hp.
    reflexivity.
  - intros u sid svc Hu Hc Hsid Hsvc Hown.
    unfold createBooking, tryCatch. rewrite Hu, Hc. simpl.
    unfold bind, gets. rewrite Hsid, Hsvc, Hown, String.eqb_refl.
    reflexivity.
  - destruct (createBooking uuid chatUuid req w) as [w' r] eqn:E. simpl.
    revert E. unfold createBooking, tryCatch.
    destruct (user req) as [u|];
      [|intros [= <- <-]; repeat split; auto].
    destruct (bool_decide (utype u = provider));
      [intros [= <- <-]; repeat split; auto|].
    unfold bind at 1. unfold gets at 1.
    destruct (serviceId (body req)) as [sid|];
      [|intros [= <- <-]; repeat split; auto].
    destruct (services w !! sid) as [svc|];
      [|intros [= <- <-]; repeat split; auto].
    destruct (String.eqb (Service.providerId svc) _);
      [intros [= <- <-]; repeat split; auto|].
    destruct (toNumber (totalHours (body req))) as [hours|];
      [|intros [= <- <-]; repeat split; auto].
    destruct (toNumber (totalAmount (body req))) as [amount|];
      [|intros [= <- <-]; repeat split; auto].
    destruct (toNumber (depositAmount (body req))) as [deposit|];
      [|intros [= <- <-]; repeat split; auto].
    unfold bind at 1. simpl default.
    destruct (Booking_create _ _ _ _ _ _ _ _ w) as [w1 [e|b]] eqn:E1.
    { assert (w1 = w).
      { revert E1. unfold Booking_create.
        repeat match goal with
               | |- context [match ?x with _ => _ end] => destruct x
               end; intros [= <-]; reflexivity. }
      subst w1. intros [= <- <-]. repeat split; auto. }
    unfold bind at 1.
    destruct (catchM _ _ w1) as [w2 [e|chat]] eqn:E2.
    { exfalso. unfold catchM in E2.
      destruct (ensureChatForBooking chatUuid uuid b w1) as [w3 [e3|c3]];
        discriminate. }
    intros [= <- <-].
    split; [intros Hc; exfalso; apply Hc; reflexivity|].
    apply Booking_create_inv in E1 as (-> & _).
    revert E2. unfold catchM, ensureChatForBooking.
    destruct (_ || _ || _); [intros [= <- <-]; simpl; auto|].
    unfold bind, gets, ret. simpl.
    destruct (List.find _ (chats w)); [intros [= <- <-]; simpl; auto|].
    unfold Chat_create. simpl.
    destruct (existsb _ (chats w)); intros [= <- <-]; simpl; auto.
Qed.

End CreateBookingProps.

Section DeleteBooking.

Import Bookings.

(** X17.  Only an admin deletes a booking.  [deleteBooking] answers 200
    exactly to an admin who names a stored booking; it then removes that
    booking and nothing else, so that [getBooking] answers 404 for it, and
    the chat, the payments and the ledger records of the booking stay.  Any
    other answer leaves the world as it was. *)
Theorem deleteBooking_admin_only (req : Request) (w : World) :
  let w' := fst (BookingCrud.deleteBooking req w) in
  let r := snd (BookingCrud.deleteBooking req w) in
  (code r = 200%nat <->
   exists u, user req = Some u /\ utype u = admin
             /\ is_Some (bookings w !! id req))
  /\ (code r = 200%nat ->
      bookings w' = delete (id req) (bookings w)
      /\ snd (getBooking req w') = failure 404 "Booking not found")
  /\ (code r <> 200%nat -> w' = w)
  /\ chats w' = chats w
  /\ payments w' = payments w
  /\ transactions w' = transactions w.
Proof.
  cbv zeta. unfold BookingCrud.deleteBooking, tryCatch.
  destruct (user req) as [u|] eqn:Hu.
  2:{ simpl. repeat split; auto; try (clear; lia).
      - intros (? & ? & _). congruence.
      - exfalso. clear - H. simpl in H. lia.
      - exfalso. clear - H. simpl in H. lia. }
  destruct (bool_decide (utype u = admin)) eqn:Ha; simpl.
  2:{ apply bool_decide_eq_false in Ha.
      repeat split; auto; try (clear; lia).
      - intros (? & [= <-] & ? & _). congruence.
      - exfalso. clear - H. simpl in H. lia.
      - exfalso. clear - H. simpl in H. lia. }
  apply bool_decide_eq_true in Ha.
  unfold bind, gets, modify, ret.
  destruct (bookings w !! id req) as [b|] eqn:Hb; simpl.
  - repeat split; auto; try (intros; exfalso; congruence).
    + intros _. exists u. eauto.
    + unfold getBooking, tryCatch. rewrite Hu. simpl.
      unfold bind, gets, ret. simpl. rewrite lookup_delete_eq. reflexivity.
  - repeat split; auto; try (clear; lia).
    + intros (? & _ & _ & [? ?]). congruence.
    + exfalso. clear - H. simpl in H. lia.
    + exfalso. clear - H. simpl in H. lia.
Qed.

End DeleteBooking.

Section ListBookings.

Import BookingCrud.

Lemma same_Some x v : same (Some x) v = true -> v = x.
Proof. unfold same. apply String.eqb_eq. Qed.

(** X18.  The list of bookings shows a caller who is no admin only bookings
    of their own.  Every booking selected by the filter that [listBookings]
    builds for such a caller has the caller as its customer or as its
    provider; when the query names neither, a provider is shown the bookings
    they provide and anyone else the bookings they made.  A query that names
    somebody else is answered 403. *)
Theorem listBookings_shows_own_bookings (u : AuthUser) (q : Query) :
  utype u <> admin ->
  (forall f b,
      listBookingsFilter u q = inr f ->
      matches f b = true ->
      (Booking.customerId b = uid u \/ Booking.providerId b = uid u)
      /\ (truthy (q_customerId q) = None ->
          truthy (q_providerId q) = None ->
          if bool_decide (utype u = provider)
          then Booking.providerId b = uid u
          else Booking.customerId b = uid u))
  /\ (forall other,
        (truthy (q_customerId q) = Some other
         \/ truthy (q_providerId q) = Some other) ->
        other <> uid u ->
        exists r, listBookingsFilter u q = inl r /\ code r = 403%nat).
Proof.
  intros Hadmin.
  assert (Ha : bool_decide (utype u = admin) = false)
    by (apply bool_decide_eq_false; exact Hadmin).
  split.
  - intros f b Hf Hm. unfold listBookingsFilter in Hf. rewrite Ha in Hf.
    cbv zeta in Hf. simpl negb in Hf. cbn [andb] in Hf.
    destruct (truthy (q_customerId q)) as [c|] eqn:Hc;
      [destruct (String.eqb c (uid u)) eqn:Ec; [|discriminate]|];
      (destruct (truthy (q_providerId q)) as [p|] eqn:Hp;
       [destruct (String.eqb p (uid u)) eqn:Ep; [|discriminate]|]);
      simpl in Hf;
      (destruct (statusFilter q); [discriminate|]);
      (destruct (paymentStatusFilter q); [discriminate|]);
      injection Hf as <-; unfold matches in Hm;
      destruct (bool_decide (utype u = provider)); simpl in Hm;
      repeat match goal with
             | H : (_ && _)%bool = true |- _ => apply andb_prop in H as [? ?]
             | H : same (Some _) _ = true |- _ => apply same_Some in H
             | H : String.eqb _ _ = true |- _ => apply String.eqb_eq in H
             end;
      subst; (split; [auto|]); try discriminate; auto.
  - intros other Hq Hne. unfold listBookingsFilter. rewrite Ha.
    cbv zeta. simpl negb. cbn [andb].
    apply String.eqb_neq in Hne.
    destruct Hq as [Hq|Hq].
    + rewrite Hq, Hne. simpl. eauto.
    + rewrite Hq, Hne. simpl.
      destruct (truthy (q_customerId q)) as [c|]; [|simpl; eauto].
      destruct (String.eqb c (uid u)); simpl; eauto.
Qed.

Lemma listBookings_shows_own_bookings_witness :
  (forall f b,
      listBookingsFilter Sample.bella
        (mkQuery None None None (Some "completed") None None None) = inr f ->
      matches f b = true ->
      (Booking.customerId b = "bella" \/ Booking.providerId b = "bella")
      /\ (truthy None = None -> truthy None = None ->
          Booking.providerId b = "bella"))
  /\ (forall other,
        (truthy None = Some other \/ truthy None = Some other) ->
        other <> "bella" ->
        exists r,
          listBookingsFilter Sample.bella
            (mkQuery None None None (Some "completed") None None None)
          = inl r /\ code r = 403%nat).
Proof.
  apply (listBookings_shows_own_bookings Sample.bella
           (mkQuery None None None (Some "completed") None None None)).
  discriminate.
Defined.

End ListBookings.

(** ** Balances and withdrawals *)

Section Balances.

Import Users.






End Balances.

Section WithdrawalsMore.

Import Withdrawals.






End WithdrawalsMore.

(** ** The reviews in the store *)

Section ReviewsMore.

Import Reviews.

Lemma updateServiceReviewStats_run sid w :
  exists w2,
    updateServiceReviewStats sid w = (w2, inr tt)
    /\ reviews w2 = reviews w.
Proof.
  unfold updateServiceReviewStats.
  destruct (String.eqb sid ""); [exists w; auto|].
  unfold modify. eexists. split; [reflexivity|].
  destruct (services w !! sid); reflexivity.
Qed.

(** The reviews after [createReview], whatever the request. *)
Lemma createReview_reviews uuid req w :
  reviews (fst (createReview uuid req w)) = reviews w
  \/ exists r,
       reviews (fst (createReview uuid req w)) = <[uuid := r]> (reviews w)
       /\ Review.valid r = true
       /\ reviews w !! uuid = None
       /\ (forall k r', reviews w !! k = Some r' ->
             Review.serviceId r' = Review.serviceId r ->
             Review.customerId r' = Review.customerId r -> False).
Proof.
  destruct (createReview uuid req w) as [w' r] eqn:E. cbn [fst].
  revert E. unfold createReview, tryCatch.
  destruct (user req) as [u|]; [|intros [= <- <-]; auto].
  destruct (bool_decide (utype u = provider)); [intros [= <- <-]; auto|].
  destruct (truthy (bookingId (body req))) as [bid|];
    [|intros [= <- <-]; auto].
  unfold bind at 1. unfold gets at 1.
  destruct (match serviceId (body req) with
            | Some sid => services w !! sid
            | None => None
            end); [|intros [= <- <-]; auto].
  unfold bind at 1. unfold gets at 1.
  destruct (bookings w !! bid) as [bk|]; [|intros [= <- <-]; auto].
  destruct (negb _); [intros [= <- <-]; auto|].
  destruct (String.eqb (uid u) ""); [intros [= <- <-]; auto|].
  destruct (_ && _); [intros [= <- <-]; auto|].
  destruct (_ && _); [intros [= <- <-]; auto|].
  destruct (String.eqb (Booking.customerId bk) ""); [intros [= <- <-]; auto|].
  destruct (toNumber (rating (body req))) as [rt|];
    [|intros [= <- <-]; auto].
  unfold bind at 1. unfold Review_create at 1.
  destruct (negb (Review.valid _)) eqn:V; [intros [= <- <-]; auto|].
  apply negb_false_iff in V.
  destruct (bool_decide (is_Some (reviews w !! uuid))) eqn:Hfree;
    [intros [= <- <-]; auto|].
  destruct (existsb _ (map_to_list (reviews w))) eqn:Hdup;
    [intros [= <- <-]; auto|].
  cbn [orb]. unfold bind at 1.
  match goal with
  | |- context [updateServiceReviewStats ?sid ?w0] =>
      destruct (updateServiceReviewStats_run sid w0) as (w2 & -> & R2)
  end.
  unfold ret. intros [= <- <-]. right. eexists. split; [exact R2|].
  split; [exact V|]. split.
  - apply bool_decide_eq_false in Hfree.
    destruct (reviews w !! uuid) eqn:L; [|reflexivity].
    exfalso. apply Hfree. eauto.
  - intros k r' Hk Hs Hc.
    assert (Hex : existsb
              (fun kr : string * Review.t =>
                 String.eqb (Review.serviceId kr.2) (Booking.serviceId bk)
                 && String.eqb (Review.customerId kr.2)
                      (Booking.customerId bk))
              (map_to_list (reviews w)) = true).
    { apply existsb_exists. exists (k, r'). split.
      - apply list_elem_of_In, elem_of_map_to_list. exact Hk.
      - simpl in Hs, Hc |- *. rewrite Hs, Hc, !String.eqb_refl.
        reflexivity. }
    simpl in Hdup. congruence.
Qed.

(** The reviews after [updateReview], whatever the request. *)
Lemma updateReview_reviews req w :
  reviews (fst (updateReview req w)) = reviews w
  \/ exists old r,
       reviews w !! id req = Some old
       /\ mayAlter (user req) old
       /\ reviews (fst (updateReview req w)) = <[id req := r]> (reviews w)
       /\ Review.valid r = true
       /\ Review.serviceId r = Review.serviceId old
       /\ Review.customerId r = Review.customerId old
       /\ Review.bookingId r = Review.bookingId old.
Proof.
  destruct (updateReview req w) as [w' r] eqn:E. cbn [fst].
  revert E. unfold updateReview, tryCatch.
  destruct (user req) as [u|]; [|intros [= <- <-]; auto].
  unfold bind at 1. unfold gets at 1.
  destruct (reviews w !! id req) as [old|] eqn:Hold;
    [|intros [= <- <-]; auto].
  destruct (negb (bool_decide (utype u = admin))
            && negb (String.eqb (Review.customerId old) (uid u))) eqn:Hacc;
    [intros [= <- <-]; auto|].
  assert (Hmay : mayAlter (Some u) old).
  { exists u. split; [reflexivity|].
    apply andb_false_iff in Hacc as [H|H].
    - left. apply negb_false_iff, bool_decide_eq_true in H. exact H.
    - right. apply negb_false_iff, String.eqb_eq in H. exact H. }
  assert (Hsave : forall r2 (stats : bool) w' r,
    Review.serviceId r2 = Review.serviceId old ->
    Review.customerId r2 = Review.customerId old ->
    Review.bookingId r2 = Review.bookingId old ->
    (let (w1, res) :=
       (Review_save (id req) r2 ;;;
        (if stats then updateServiceReviewStats (Review.serviceId r2)
         else ret tt) ;;;
        ret (mkResponse 200 (ReviewData r2))) w in
     match res with
     | inr r0 => (w1, r0)
     | inl e => (w1, reviewsCatch false e)
     end) = (w', r) ->
    reviews w' = reviews w
    \/ exists old0 r0,
         Some old = Some old0 /\ mayAlter (Some u) old0
         /\ reviews w' = <[id req := r0]> (reviews w)
         /\ Review.valid r0 = true
         /\ Review.serviceId r0 = Review.serviceId old0
         /\ Review.customerId r0 = Review.customerId old0
         /\ Review.bookingId r0 = Review.bookingId old0).
  { intros r2 stats w'' r'' Hs Hc Hb.
    unfold bind at 1. unfold Review_save.
    destruct (Review.valid r2) eqn:V; [|intros [= <- <-]; auto].
    unfold bind at 1.
    assert (Hst : exists w2,
              (if stats then updateServiceReviewStats (Review.serviceId r2)
               else ret tt)
                (withReviews (<[id req := r2]> (reviews w)) w) = (w2, inr tt)
              /\ reviews w2 = <[id req := r2]> (reviews w)).
    { destruct stats; [apply updateServiceReviewStats_run|].
      eexists. split; reflexivity. }
    destruct Hst as (w2 & -> & R2). unfold ret. intros [= <- <-].
    right. exists old, r2. auto 10. }
  destruct (rating (body req)) as [| | |q|]; cbn [toNumber];
    try (intros [= <- <-]; auto; fail);
    destruct (comment (body req)) as [c|].
  - apply (Hsave (Review.mk (Review.bookingId old) (Review.serviceId old)
                    (Review.customerId old) (Review.rating old) (trim c))
             false); reflexivity.
  - apply (Hsave old false); reflexivity.
  - apply (Hsave (Review.mk (Review.bookingId old) (Review.serviceId old)
                    (Review.customerId old) q (trim c)) true); reflexivity.
  - apply (Hsave (Review.mk (Review.bookingId old) (Review.serviceId old)
                    (Review.customerId old) q (Review.comment old)) true);
      reflexivity.
Qed.

(** The reviews after [deleteReview], whatever the request. *)
Lemma deleteReview_reviews req w :
  reviews (fst (deleteReview req w)) = reviews w
  \/ exists old,
       reviews w !! id req = Some old
       /\ mayAlter (user req) old
       /\ reviews (fst (deleteReview req w)) = delete (id req) (reviews w).
Proof.
  destruct (deleteReview req w) as [w' r] eqn:E. cbn [fst].
  revert E. unfold deleteReview, tryCatch.
  destruct (user req) as [u|]; [|intros [= <- <-]; auto].
  unfold bind at 1. unfold gets at 1.
  destruct (reviews w !! id req) as [old|] eqn:Hold;
    [|intros [= <- <-]; auto].
  destruct (negb (bool_decide (utype u = admin))
            && negb (String.eqb (Review.customerId old) (uid u))) eqn:Hacc;
    [intros [= <- <-]; auto|].
  assert (Hmay : mayAlter (Some u) old).
  { exists u. split; [reflexivity|].
    apply andb_false_iff in Hacc as [H|H].
    - left. apply negb_false_iff, bool_decide_eq_true in H. exact H.
    - right. apply negb_false_iff, String.eqb_eq in H. exact H. }
  unfold bind at 1. unfold modify at 1. unfold bind at 1.
  match goal with
  | |- context [updateServiceReviewStats ?sid ?w0] =>
      destruct (updateServiceReviewStats_run sid w0) as (w2 & -> & R2)
  end.
  unfold ret. intros [= <- <-]. right. exists old. auto.
Qed.

(** X22.  The three handlers that write reviews keep the store within the
    schema: if every stored rating is between 0 and 5 and no customer has
    two reviews of one service, the same holds after [createReview],
    [updateReview] and [deleteReview], whatever the request and its
    outcome. *)
Theorem review_writes_keep_the_schema
    (uuid : string) (req : Request) (w : World) :
  ratingsInRange w ->
  oneReviewPerCustomer w ->
  (ratingsInRange (fst (createReview uuid req w))
   /\ oneReviewPerCustomer (fst (createReview uuid req w)))
  /\ (ratingsInRange (fst (updateReview req w))
      /\ oneReviewPerCustomer (fst (updateReview req w)))
  /\ (ratingsInRange (fst (deleteReview req w))
      /\ oneReviewPerCustomer (fst (deleteReview req w))).
Proof.
  intros Hv Hu. split; [|split].
  - destruct (createReview_reviews uuid req w)
      as [E | (r & E & V & Hfree & Hnew)];
      unfold ratingsInRange, oneReviewPerCustomer; rewrite E;
      [split; assumption|]. split.
    + intros k r'. destruct (decide (k = uuid)) as [->|Hk].
      * rewrite lookup_insert_eq. intros [= <-]. exact V.
      * rewrite lookup_insert_ne by congruence. apply Hv.
    + intros k1 k2 r1 r2.
      destruct (decide (k1 = uuid)) as [->|H1];
        destruct (decide (k2 = uuid)) as [->|H2];
        rewrite ?lookup_insert_eq;
        rewrite ?(lookup_insert_ne _ uuid k1) by congruence;
        rewrite ?(lookup_insert_ne _ uuid k2) by congruence.
      * reflexivity.
      * intros [= <-] L2 Hs Hc. exfalso.
        exact (Hnew k2 r2 L2 (eq_sym Hs) (eq_sym Hc)).
      * intros L1 [= <-] Hs Hc. exfalso. exact (Hnew k1 r1 L1 Hs Hc).
      * apply Hu.
  - destruct (updateReview_reviews req w)
      as [E | (old & r & Hold & _ & E & V & Hs & Hc & _)];
      unfold ratingsInRange, oneReviewPerCustomer; rewrite E;
      [split; assumption|]. split.
    + intros k r'. destruct (decide (k = id req)) as [->|Hk].
      * rewrite lookup_insert_eq. intros [= <-]. exact V.
      * rewrite lookup_insert_ne by congruence. apply Hv.
    + intros k1 k2 r1 r2.
      destruct (decide (k1 = id req)) as [->|H1];
        destruct (decide (k2 = id req)) as [->|H2];
        rewrite ?lookup_insert_eq;
        rewrite ?(lookup_insert_ne _ (id req) k1) by congruence;
        rewrite ?(lookup_insert_ne _ (id req) k2) by congruence.
      * reflexivity.
      * intros [= <-] L2 Hs' Hc'. symmetry.
        apply (Hu k2 (id req) r2 old L2 Hold); congruence.
      * intros L1 [= <-] Hs' Hc'.
        apply (Hu k1 (id req) r1 old L1 Hold); congruence.
      * apply Hu.
  - destruct (deleteReview_reviews req w) as [E | (old & Hold & _ & E)];
      unfold ratingsInRange, oneReviewPerCustomer; rewrite E;
      [split; assumption|]. split.
    + intros k r' L. apply lookup_delete_Some in L as [_ L].
      exact (Hv k r' L).
    + intros k1 k2 r1 r2 L1 L2.
      apply lookup_delete_Some in L1 as [_ L1].
      apply lookup_delete_Some in L2 as [_ L2].
      exact (Hu k1 k2 r1 r2 L1 L2).
Qed.

Lemma review_writes_keep_the_schema_witness :
  let req := Sample.review Sample.alice "b-1" 5 in
  (ratingsInRange (fst (createReview "r-1" req Sample.reviewed))
   /\ oneReviewPerCustomer (fst (createReview "r-1" req Sample.reviewed)))
  /\ (ratingsInRange (fst (updateReview req Sample.reviewed))
      /\ oneReviewPerCustomer (fst (updateReview req Sample.reviewed)))
  /\ (ratingsInRange (fst (deleteReview req Sample.reviewed))
      /\ oneReviewPerCustomer (fst (deleteReview req Sample.reviewed))).
Proof.
  apply (review_writes_keep_the_schema "r-1"
           (Sample.review Sample.alice "b-1" 5) Sample.reviewed).
  - intros k r H. vm_compute in H. discriminate.
  - intros k1 k2 r1 r2 H. vm_compute in H. discriminate.
Defined.

(** X23.  A review is altered by its author or by an admin only.  When
    [updateReview] or [deleteReview] leaves the stored reviews other than
    they were, the review named by the request existed and the caller was
    an admin or its author; and an update never moves a review to another
    service, customer or booking. *)
Theorem reviews_altered_by_author_or_admin (req : Request) (w : World) :
  (reviews (fst (updateReview req w)) <> reviews w ->
   exists old r,
     reviews w !! id req = Some old
     /\ mayAlter (user req) old
     /\ reviews (fst (updateReview req w)) = <[id req := r]> (reviews w)
     /\ Review.serviceId r = Review.serviceId old
     /\ Review.customerId r = Review.customerId old
     /\ Review.bookingId r = Review.bookingId old)
  /\ (reviews (fst (deleteReview req w)) <> reviews w ->
      exists old,
        reviews w !! id req = Some old
        /\ mayAlter (user req) old
        /\ reviews (fst (deleteReview req w)) = delete (id req) (reviews w)).
Proof.
  split; intros Hne.
  - destruct (updateReview_reviews req w)
      as [E | (old & r & Hold & Hmay & E & _ & Hs & Hc & Hb)];
      [contradiction|].
    exists old, r. auto 10.
  - destruct (deleteReview_reviews req w) as [E | (old & Hold & Hmay & E)];
      [contradiction|].
    exists old. auto.
Qed.

End ReviewsMore.

(** ** The aggregate of a service *)

Section ReviewStats.

Import Reviews.






(** X25.  A review can be read back until it is deleted.  After
    [createReview] answers 201, [getReview] under the new identifier answers
    200 with the review created; after [deleteReview] answers 200,
    [getReview] answers 404 for it.  [getReview] changes nothing. *)
Theorem review_round_trip
    (uuid : string) (req : Request) (w w' : World) (r : Review.t) :
  createReview uuid req w = (w', mkResponse 201 (ReviewData r)) ->
  getReview uuid w' = (w', mkResponse 200 (ReviewData r))
  /\ (forall del w'' message,
        id del = uuid ->
        deleteReview del w' = (w'', mkResponse 200 (Message message)) ->
        getReview uuid w'' = (w'', failure 404 "Review not found")).
Proof.
  intros H. apply createReview_created in H as [_ ->].
  destruct (updateServiceReviewStats_run (Review.serviceId r)
              (withReviews (<[uuid := r]> (reviews w)) w)) as (w2 & E & R).
  rewrite E. cbn [fst]. split.
  - unfold getReview, tryCatch, bind, gets, ret. rewrite R. simpl.
    rewrite lookup_insert_eq. reflexivity.
  - intros del w'' message Hid Hdel.
    apply deleteReview_deleted in Hdel as (old & _ & ->).
    destruct (updateServiceReviewStats_run (Review.serviceId old)
                (withReviews (delete (id del) (reviews w2)) w2))
      as (w3 & E3 & R3).
    rewrite E3. cbn [fst].
    unfold getReview, tryCatch, bind, gets, ret. rewrite R3. simpl.
    rewrite Hid, lookup_delete_eq. reflexivity.
Qed.

Lemma review_round_trip_witness :
  let w1 := fst (createReview "r-1" (Sample.review Sample.alice "b-1" 5)
                   Sample.reviewed) in
  getReview "r-1" w1
  = (w1, mkResponse 200 (ReviewData (Review.mk "b-1" "svc-1" "alice" 5 "")))
  /\ (forall del w'' message,
        id del = "r-1" ->
        deleteReview del w1 = (w'', mkResponse 200 (Message message)) ->
        getReview "r-1" w'' = (w'', failure 404 "Review not found")).
Proof.
  apply (review_round_trip "r-1" (Sample.review Sample.alice "b-1" 5)
           Sample.reviewed).
  reflexivity.
Defined.

End ReviewStats.

Section ReviewOrigins.

Import Reviews.

(** X26.  A review is always of a stored booking, for the service of that
    booking and in the name of its customer.  When [createReview] answers
    201 the caller is no provider, the service exists, and a caller who is a
    customer is the customer of the booking; the rating is between 0 and
    5. *)
Theorem createReview_reviews_a_booking
    (uuid : string) (req : Request) (w w' : World) (r : Review.t) :
  createReview uuid req w = (w', mkResponse 201 (ReviewData r)) ->
  exists u bk,
    user req = Some u
    /\ utype u <> provider
    /\ bookings w !! Review.bookingId r = Some bk
    /\ Review.serviceId r = Booking.serviceId bk
    /\ Review.customerId r = Booking.customerId bk
    /\ serviceId (body req) = Some (Review.serviceId r)
    /\ is_Some (services w !! Review.serviceId r)
    /\ (utype u = customer -> Review.customerId r = uid u)
    /\ (0 <= Review.rating r)%Q
    /\ (Review.rating r <= 5)%Q.
Proof.
  unfold createReview, tryCatch. intros H.
  destruct (user req) as [u|]; [|discriminate H].
  destruct (bool_decide (utype u = provider)) eqn:Hrole; [discriminate H|].
  apply bool_decide_eq_false in Hrole.
  destruct (truthy (bookingId (body req))) as [bid|]; [|discriminate H].
  unfold bind at 1 in H. unfold gets at 1 in H.
  destruct (serviceId (body req)) as [sid|] eqn:Hsid; [|discriminate H].
  destruct (services w !! sid) as [svc|] eqn:Hsvc; [|discriminate H].
  unfold bind at 1 in H. unfold gets at 1 in H.
  destruct (bookings w !! bid) as [bk|] eqn:Hbk; [|discriminate H].
  destruct (negb _) eqn:Hsame; [discriminate H|].
  apply negb_false_iff, String.eqb_eq in Hsame. simpl in Hsame.
  destruct (String.eqb (uid u) ""); [discriminate H|].
  destruct (negb (bool_decide (utype u = admin))
            && negb (String.eqb (Booking.customerId bk) (uid u))) eqn:Hown;
    [discriminate H|].
  apply andb_false_iff in Hown.
  destruct (_ && _); [discriminate H|].
  destruct (String.eqb (Booking.customerId bk) ""); [discriminate H|].
  destruct (toNumber (rating (body req))) as [rt|]; [|discriminate H].
  unfold bind at 1 in H. unfold Review_create at 1 in H.
  destruct (negb (Review.valid _)) eqn:V; [discriminate H|].
  destruct (_ || _); [discriminate H|].
  unfold bind, ret in H.
  destruct (updateServiceReviewStats _ _) as [w2 [e|[]]] eqn:E;
    [apply (f_equal snd) in E; rewrite updateServiceReviewStats_total in E;
     discriminate E|].
  injection H as _ <-. apply negb_false_iff in V.
  unfold Review.valid in V. apply andb_prop in V as [V0 V5].
  apply Qle_bool_iff in V0, V5. simpl in V0, V5.
  exists u, bk. simpl. rewrite Hsame.
  repeat split; auto; try (rewrite Hsvc; eauto).
  - intros Hc. destruct Hown as [Ho|Ho].
    + apply negb_false_iff, bool_decide_eq_true in Ho. congruence.
    + apply negb_false_iff, String.eqb_eq in Ho. exact Ho.
Qed.

Lemma createReview_reviews_a_booking_witness :
  exists u bk,
    user (Sample.review Sample.alice "b-1" 5) = Some u
    /\ utype u <> provider
    /\ bookings Sample.reviewed !! "b-1" = Some bk
    /\ "svc-1" = Booking.serviceId bk
    /\ "alice" = Booking.customerId bk
    /\ serviceId (body (Sample.review Sample.alice "b-1" 5)) = Some "svc-1"
    /\ is_Some (services Sample.reviewed !! "svc-1")
    /\ (utype u = customer -> "alice" = uid u)
    /\ (0 <= 5)%Q
    /\ (5 <= 5)%Q.
Proof.
  apply (createReview_reviews_a_booking "r-1"
           (Sample.review Sample.alice "b-1" 5) Sample.reviewed
           (fst (createReview "r-1" (Sample.review Sample.alice "b-1" 5)
                   Sample.reviewed))
           (Review.mk "b-1" "svc-1" "alice" 5 "")).
  reflexivity.
Defined.

End ReviewOrigins.

(** ** Replays of a completion *)

Section Replay.

Import Bookings.


End Replay.
